(** * The Streamlit chat frontend (frontend/app.py), embedded in Rocq

    The development follows the source file top-down:

    - the values [response.json()] hands to the program, with the Python
      operations the source applies to them (subscript, [in], truthiness,
      iteration, [dict.get]);
    - the exception classes of [requests] and of the interpreter, and the way
      an [except] chain picks its handler;
    - [st.session_state] and the page a script run draws, threaded through a
      small state-and-exception monad;
    - [init_session_state], [call_backend_chat_api], [display_trace_events],
      [render_chat_interface] and [main];
    - the properties of the session store, of the trace display and of a
      user turn. *)

From Stdlib Require Import ZArith SpecFloat.
From stdpp Require Import gmap strings list fin_maps pretty.

Set Warnings "-register-all".
Open Scope string_scope.
Open Scope list_scope.

(** ** Decoded JSON values *)

(** What [json.loads] produces: [None], [bool], [int], [float], [str],
    [list] and [dict] with string keys. *)
Inductive value : Type :=
| JNull
| JBool (b : bool)
| JInt (n : Z)
| JFloat (f : spec_float)
| JStr (s : string)
| JArr (l : list value)
| JObj (m : gmap string value).

(** ** Exceptions *)

(** The classes that can reach the handlers of the source: those of
    [requests.exceptions], [json.JSONDecodeError], and the interpreter's own
    for a failed subscript, membership test or attribute access. *)
Inductive exn_class : Type :=
| Requests_ConnectionError
| Requests_Timeout
| Requests_HTTPError
| Requests_InvalidJSONError
| Requests_JSONDecodeError
| RequestException
| Json_JSONDecodeError
| ValueError
| OSError
| KeyError
| LookupError
| TypeError
| AttributeError
| Exception_.

#[global] Instance exn_class_eq_dec : EqDecision exn_class.
Proof. solve_decision. Defined.

(** Direct base classes, as declared in [requests/exceptions.py] (2.27 and
    later, where [Response.json] raises [requests.exceptions.JSONDecodeError],
    a subclass of both [InvalidJSONError] and [json.JSONDecodeError]) and in
    the interpreter. *)
Definition bases (c : exn_class) : list exn_class :=
  match c with
  | Requests_ConnectionError => [RequestException]
  | Requests_Timeout => [RequestException]
  | Requests_HTTPError => [RequestException]
  | Requests_InvalidJSONError => [RequestException]
  | Requests_JSONDecodeError => [Requests_InvalidJSONError; Json_JSONDecodeError]
  | RequestException => [OSError]
  | Json_JSONDecodeError => [ValueError]
  | ValueError => [Exception_]
  | OSError => [Exception_]
  | KeyError => [LookupError]
  | LookupError => [Exception_]
  | TypeError => [Exception_]
  | AttributeError => [Exception_]
  | Exception_ => []
  end.

Fixpoint issubclass_fuel (fuel : nat) (c d : exn_class) : bool :=
  bool_decide (c = d) ||
  match fuel with
  | O => false
  | S fuel' => existsb (fun b => issubclass_fuel fuel' b d) (bases c)
  end.

(** The class graph above has depth four. *)
Definition issubclass (c d : exn_class) : bool := issubclass_fuel 4 c d.

(** An exception object: its class and what [str(e)] gives. *)
Record exn : Type := Exn { exn_cls : exn_class; exn_str : string }.

Inductive outcome (A : Type) : Type :=
| Ok (a : A)
| Raise (e : exn).
Arguments Ok {A} a.
Arguments Raise {A} e.

#[global] Instance outcome_ret : MRet outcome := fun _ a => Ok a.
#[global] Instance outcome_bind : MBind outcome := fun _ _ k m =>
  match m with
  | Ok a => k a
  | Raise e => Raise e
  end.

(** ** The interpreter's renderings

    [py_str v] is [str(v)] for a decoded value that is not a string (numbers,
    [None], containers); [fault_text] is the message the interpreter puts in a
    [TypeError] or [AttributeError]. Both depend on the interpreter version
    and on nothing in this program, so they are taken as given. *)
Inductive fault : Type :=
| NotSubscriptable (type_name : string)
| BadIndex (type_name : string)
| NotIterable (type_name : string)
| NotContainer (type_name : string)
| Unhashable (type_name : string)
| NoAttribute (type_name attr : string)
| NoSessionKey (attr : string).

Class PyRuntime : Type := {
  py_str : value -> string;
  fault_text : fault -> string
}.

Definition type_name (v : value) : string :=
  match v with
  | JNull => "NoneType"
  | JBool _ => "bool"
  | JInt _ => "int"
  | JFloat _ => "float"
  | JStr _ => "str"
  | JArr _ => "list"
  | JObj _ => "dict"
  end.

(** [bool(v)]. *)
Definition truthy (v : value) : bool :=
  match v with
  | JNull => false
  | JBool b => b
  | JInt n => negb (n =? 0)%Z
  | JFloat (S754_zero _) => false
  | JFloat _ => true
  | JStr s => negb (String.length s =? 0)%nat
  | JArr l => negb (length l =? 0)%nat
  | JObj m => negb (size m =? 0)%nat
  end.

(** [v == s] for a string literal [s]. *)
Definition eq_str (v : value) (s : string) : bool :=
  match v with
  | JStr t => bool_decide (t = s)
  | _ => false
  end.

Fixpoint is_prefix (p s : string) : bool :=
  match p, s with
  | EmptyString, _ => true
  | String a p', String b s' => bool_decide (a = b) && is_prefix p' s'
  | String _ _, EmptyString => false
  end.

(** [p in s] on two strings: [p] occurs in [s]. *)
Fixpoint is_substring (p s : string) : bool :=
  is_prefix p s ||
  match s with
  | EmptyString => false
  | String _ s' => is_substring p s'
  end.

Section Interpreter.
Context `{PyRuntime}.

(** What an f-string puts in place of [{v}]. *)
Definition format_value (v : value) : string :=
  match v with
  | JStr s => s
  | _ => py_str v
  end.

Definition type_error (f : fault) : exn := Exn TypeError (fault_text f).
Definition attribute_error (f : fault) : exn := Exn AttributeError (fault_text f).

(** [KeyError(k)]: [str] of it is the [repr] of the key. *)
Definition key_error (k : string) : exn := Exn KeyError ("'" +:+ k +:+ "'").

(** [v[k]] for a string literal [k]. *)
Definition subscript (v : value) (k : string) : outcome value :=
  match v with
  | JObj m =>
      match m !! k with
      | Some x => Ok x
      | None => Raise (key_error k)
      end
  | JArr _ | JStr _ => Raise (type_error (BadIndex (type_name v)))
  | _ => Raise (type_error (NotSubscriptable (type_name v)))
  end.

(** [k in v] for a string literal [k]. *)
Definition contains (k : string) (v : value) : outcome bool :=
  match v with
  | JObj m => Ok (bool_decide (is_Some (m !! k)))
  | JArr l => Ok (existsb (fun x => eq_str x k) l)
  | JStr s => Ok (is_substring k s)
  | _ => Raise (type_error (NotContainer (type_name v)))
  end.

(** The items a [for] loop over [v] visits. A dict yields its keys (in the
    order of the map here, while Python keeps insertion order; every key is a
    string either way) and a string its characters (strings are held as
    bytes here, so one item per byte, which is exact for ASCII text). *)
Definition iterate (v : value) : outcome (list value) :=
  match v with
  | JArr l => Ok l
  | JObj m => Ok (JStr <$> (map_to_list m).*1)
  | JStr s => Ok ((fun a => JStr (String a EmptyString)) <$> String.list_ascii_of_string s)
  | _ => Raise (type_error (NotIterable (type_name v)))
  end.

(** [data.get(k, default)]: only a dict has the method. *)
Definition dict_get (data : value) (k : string) (dflt : value) : outcome value :=
  match data with
  | JObj m => Ok (default dflt (m !! k))
  | _ => Raise (attribute_error (NoAttribute (type_name data) "get"))
  end.
End Interpreter.

(** ** Exception handlers *)

(** An [except C as e: ...] clause; a [try] statement carries a list of them
    and runs the first whose class the exception is an instance of. *)
Definition select_handler {H : Type} (handlers : list (exn_class * H)) (e : exn)
    : option H :=
  snd <$> List.find (fun h => issubclass (exn_cls e) (fst h)) handlers.

(** ** The backend's HTTP answer *)

(** [status_error] is the text [raise_for_status] builds from the status
    line and the URL; [body] is the decoded body, [None] when the body is not
    valid JSON, in which case [decode_error] is the decoder's message. *)
Record response : Type := Response {
  status_code : Z;
  status_error : string;
  body : option value;
  decode_error : string
}.

(** [Response.raise_for_status]: an [HTTPError] for a 4xx or 5xx status. *)
Definition raise_for_status (r : response) : outcome unit :=
  if ((400 <=? status_code r) && (status_code r <? 600))%Z
  then Raise (Exn Requests_HTTPError (status_error r))
  else Ok tt.

(** [Response.json]. *)
Definition response_json (r : response) : outcome value :=
  match body r with
  | Some v => Ok v
  | None => Raise (Exn Requests_JSONDecodeError (decode_error r))
  end.

(** The JSON request body of the chat endpoint. *)
Record chat_payload : Type := ChatPayload {
  payload_session_id : string;
  payload_query : string;
  payload_enable_web_search : bool
}.

(** [requests.post(url, json=payload)]: the network either raises or answers. *)
Definition http_post : Type := string -> chat_payload -> outcome response.

(** ** Session state and the page *)

Record message : Type := Message { role : string; content : value }.

(** [st.session_state], with the three keys the program uses; [None] is a
    key that is not set. *)
Record session_state : Type := SessionState {
  messages : option (list message);
  session_id : option string;
  web_search_enabled : option bool
}.

Definition empty_session : session_state := SessionState None None None.

(** The Streamlit calls a script run makes, in order. A [with] block is
    recorded by the call that opens it. *)
Inductive ui_call : Type :=
| Title (s : string)
| Header (s : string)
| Subheader (s : string)
| Markdown (v : value)
| Write (s : string)
| Success (s : string)
| Warning (s : string)
| Error (s : string)
| Json (v : value)
| Checkbox (label : string) (v : bool)
| ChatMessage (r : string)
| Spinner (s : string)
| Expander (s : string).

Record world : Type := World { session : session_state; page : list ui_call }.

(** A computation reads and updates the world and returns or raises; the
    world it leaves behind is kept in both cases, as the updates of the
    source are made in place. *)
Definition M (A : Type) : Type := world -> outcome A * world.

#[global] Instance M_ret : MRet M := fun _ a w => (Ok a, w).
#[global] Instance M_bind : MBind M := fun _ _ k m w =>
  match m w with
  | (Ok a, w') => k a w'
  | (Raise e, w') => (Raise e, w')
  end.

Definition lift {A : Type} (o : outcome A) : M A := fun w => (o, w).

Definition emit (c : ui_call) : M unit :=
  fun w => (Ok tt, World (session w) (page w ++ [c])).

(** [pass]. *)
Definition skip : M unit := fun w => (Ok tt, w).

Definition emit_all (cs : list ui_call) : M unit :=
  fun w => (Ok tt, World (session w) (page w ++ cs)).

Definition try_except {A : Type} (body : M A) (handlers : list (exn_class * (exn -> M A)))
    : M A :=
  fun w =>
    match body w with
    | (Ok a, w') => (Ok a, w')
    | (Raise e, w') =>
        match select_handler handlers e with
        | Some h => h e w'
        | None => (Raise e, w')
        end
    end.

(** [for x in xs: body x]. *)
Fixpoint for_each {A : Type} (xs : list A) (body : A -> M unit) : M unit :=
  match xs with
  | [] => skip
  | x :: xs' => body x ≫= fun _ => for_each xs' body
  end.

Section Program.
Context `{PyRuntime}.

(** *** Access to [st.session_state] *)

Definition session_error (attr : string) : exn :=
  attribute_error (NoSessionKey attr).

Definition get_messages : M (list message) := fun w =>
  match messages (session w) with
  | Some ms => (Ok ms, w)
  | None => (Raise (session_error "messages"), w)
  end.

Definition get_session_id : M string := fun w =>
  match session_id (session w) with
  | Some sid => (Ok sid, w)
  | None => (Raise (session_error "session_id"), w)
  end.

Definition get_web_search_enabled : M bool := fun w =>
  match web_search_enabled (session w) with
  | Some b => (Ok b, w)
  | None => (Raise (session_error "web_search_enabled"), w)
  end.

Definition set_messages (ms : list message) : M unit := fun w =>
  (Ok tt, World (SessionState (Some ms) (session_id (session w))
                   (web_search_enabled (session w))) (page w)).

Definition set_session_id (sid : string) : M unit := fun w =>
  (Ok tt, World (SessionState (messages (session w)) (Some sid)
                   (web_search_enabled (session w))) (page w)).

Definition set_web_search_enabled (b : bool) : M unit := fun w =>
  (Ok tt, World (SessionState (messages (session w)) (session_id (session w))
                   (Some b)) (page w)).

(** [st.session_state.messages.append(m)]. *)
Definition append_message (m : message) : M unit :=
  ms ← get_messages; set_messages (ms ++ [m]).

(** [if key not in st.session_state: body]. *)
Definition unless_set {A : Type} (field : session_state -> option A) (body : M unit)
    : M unit := fun w =>
  match field (session w) with
  | Some _ => (Ok tt, w)
  | None => body w
  end.

(** *** [load_config] *)

Definition load_config (getenv : option string) : string :=
  default "http://localhost:8000" getenv.

(** *** [init_session_state]

    [uuid4] is the string [str(uuid.uuid4())] would give in this run. *)
Definition greeting : message :=
  Message "assistant" (JStr "Hello! How can I help you today?").

Definition init_session_state (uuid4 : string) : M unit :=
  unless_set messages (set_messages []);;
  unless_set session_id (set_session_id uuid4;; append_message greeting);;
  unless_set web_search_enabled (set_web_search_enabled true).

(** *** [display_header] *)

Definition display_header : M unit :=
  emit (Title "🤖 AI Agent Chatbot");;
  emit (Markdown (JStr "Ask me anything! I can answer questions using my internal knowledge (RAG) or by searching the web."));;
  emit (Markdown (JStr "---")).

(** *** [render_document_upload_section]

    The section draws the upload widgets and reports the outcome of the
    upload request. It neither reads nor writes [st.session_state]; what it
    draws is decided by the uploader widget and the upload endpoint, so the
    drawn calls are an input here. *)
Definition render_document_upload_section (fastapi_base_url : string)
    (drawn : list ui_call) : M unit :=
  emit_all drawn.

(** *** [render_agent_settings_section]

    [checkbox] is [st.checkbox]: from the value it is created with to the
    value the widget returns in this run. *)
Definition render_agent_settings_section (checkbox : bool -> bool) : M unit :=
  emit (Header "Agent Settings");;
  value ← get_web_search_enabled;
  emit (Checkbox "Enable Web Search (🌐)" value);;
  set_web_search_enabled (checkbox value);;
  emit (Markdown (JStr "---")).

(** *** [display_chat_history] *)

Definition display_chat_history : M unit :=
  ms ← get_messages;
  for_each ms (fun message =>
    emit (ChatMessage (role message));;
    emit (Markdown (content message))).

(** *** [call_backend_chat_api] *)

Definition call_backend_chat_api (post : http_post)
    (fastapi_base_url session_id query : string) (enable_web_search : bool)
    : outcome (value * value) :=
  let payload := ChatPayload session_id query enable_web_search in
  response ← post (fastapi_base_url +:+ "/chat/") payload;
  raise_for_status response;;
  data ← response_json response;
  agent_response ← dict_get data "response"
    (JStr "Sorry, I couldn't get a response from the agent.");
  trace_events ← dict_get data "trace_events" (JArr []);
  mret (agent_response, trace_events).

(** *** [display_trace_events] *)

Definition icon_map : gmap string string :=
  <["router" := "➡️"]> (<["rag_lookup" := "📚"]> (<["web_search" := "🌐"]>
    (<["answer" := "💡"]> (<["__end__" := "✅"]> ∅)))).

(** [icon_map.get(key, "⚙️")]: the key is hashed first, which a list or a
    dict refuses. *)
Definition icon_for (key : value) : outcome string :=
  match key with
  | JStr s => Ok (default "⚙️" (icon_map !! s))
  | JArr _ | JObj _ => Raise (type_error (Unhashable (type_name key)))
  | _ => Ok "⚙️"
  end.

(** [x and y] where [y] may raise: [y] is evaluated only when [x] holds. *)
Definition and_then (x : bool) (y : outcome bool) : outcome bool :=
  if x then y else Ok false.

(** The body of the loop over the events. *)
Definition display_trace_event (event : value) : M unit :=
  node_name ← lift (subscript event "node_name");
  icon ← lift (icon_for node_name);
  step ← lift (subscript event "step");
  emit (Subheader (icon +:+ " Step " +:+ format_value step +:+ ": "
                     +:+ format_value node_name));;
  description ← lift (subscript event "description");
  emit (Write ("**Description:** " +:+ format_value description));;
  is_rag ← lift (and_then (eq_str node_name "rag_lookup")
                   (subscript event "details" ≫= contains "sufficiency_verdict"));
  (if (is_rag : bool) then
     details ← lift (subscript event "details");
     verdict ← lift (subscript details "sufficiency_verdict");
     (if eq_str verdict "Sufficient" then
        emit (Success ("**RAG Verdict:** " +:+ format_value verdict
                         +:+ " - Relevant info found in Knowledge Base."))
      else
        emit (Warning ("**RAG Verdict:** " +:+ format_value verdict
                         +:+ " - No sufficient info in Knowledge Base. Diverting to Web Search."))
      : M unit);;
     has_summary ← lift (contains "retrieved_content_summary" details);
     (if (has_summary : bool) then
        summary ← lift (subscript details "retrieved_content_summary");
        emit (Markdown (JStr ("**Retrieved Content Summary:** `"
                                +:+ format_value summary +:+ "`")))
      else skip)
   else
     is_web ← lift (and_then (eq_str node_name "web_search")
                      (subscript event "details" ≫= contains "retrieved_content_summary"));
     if (is_web : bool) then
       details ← lift (subscript event "details");
       summary ← lift (subscript details "retrieved_content_summary");
       emit (Markdown (JStr ("**Web Search Content Summary:** `"
                               +:+ format_value summary +:+ "`")))
     else
       details ← lift (subscript event "details");
       if truthy details then emit (Json details) else skip
   : M unit);;
  emit (Markdown (JStr "---")).

Definition display_trace_events (trace_events : value) : M unit :=
  if truthy trace_events then
    emit (Expander "🔬 Agent Workflow Trace");;
    events ← lift (iterate trace_events);
    for_each events display_trace_event
  else skip.

(** *** [render_chat_interface]

    The source returns nothing; the tag returned here records which way
    the function was left: no submission, the end of the [try] body, or
    the end of a handler. *)
Inductive turn_state : Type := Idle | Completed | Failed.

(** [if prompt := st.chat_input(...)]: a submitted, non-empty text. *)
Definition submitted (chat_input : option string) : option string :=
  match chat_input with
  | Some prompt => if truthy (JStr prompt) then Some prompt else None
  | None => None
  end.

Definition chat_handlers : list (exn_class * (exn -> M turn_state)) :=
  [ (Requests_ConnectionError, fun _ =>
       emit (Error "Could not connect to the FastAPI backend. Please ensure it's running.");;
       append_message (Message "assistant" (JStr "Error: Could not connect to the backend."));;
       mret Failed);
    (RequestException, fun e =>
       emit (Error ("An error occurred with the request: " +:+ exn_str e));;
       append_message (Message "assistant" (JStr ("Error: " +:+ exn_str e)));;
       mret Failed);
    (Json_JSONDecodeError, fun _ =>
       emit (Error "Received an invalid response from the backend.");;
       append_message (Message "assistant" (JStr "Error: Invalid response from backend."));;
       mret Failed);
    (Exception_, fun e =>
       emit (Error ("An unexpected error occurred: " +:+ exn_str e));;
       append_message (Message "assistant" (JStr ("Unexpected Error: " +:+ exn_str e)));;
       mret Failed) ].

Definition render_chat_interface (post : http_post) (fastapi_base_url : string)
    (chat_input : option string) : M turn_state :=
  emit (Header "Chat with the Agent");;
  display_chat_history;;
  match submitted chat_input with
  | Some prompt =>
      append_message (Message "user" (JStr prompt));;
      emit (ChatMessage "user");;
      emit (Markdown (JStr prompt));;
      emit (ChatMessage "assistant");;
      emit (Spinner "Thinking...");;
      try_except
        (sid ← get_session_id;
         enabled ← get_web_search_enabled;
         '(agent_response, trace_events) ←
           lift (call_backend_chat_api post fastapi_base_url sid prompt enabled);
         emit (Markdown agent_response);;
         append_message (Message "assistant" agent_response);;
         display_trace_events trace_events;;
         mret Completed)
        chat_handlers
  | None => mret Idle
  end.

(** *** [main]

    One script run, with what the outside world supplies to it. *)
Record script_run : Type := ScriptRun {
  getenv_base_url : option string;
  uuid4 : string;
  upload_section : list ui_call;
  checkbox : bool -> bool;
  chat_input : option string;
  requests_post : http_post
}.

Definition main (r : script_run) : M turn_state :=
  let config := load_config (getenv_base_url r) in
  init_session_state (uuid4 r);;
  display_header;;
  render_document_upload_section config (upload_section r);;
  render_agent_settings_section (checkbox r);;
  render_chat_interface (requests_post r) config (chat_input r).
End Program.

(** * The upload section in full

    [render_document_upload_section] above takes what the section draws as
    given. Here the section itself is embedded: the widgets, the request to
    the upload endpoint and the three handlers. *)

(** The file the uploader widget holds: [name], [getvalue()] and [type]. *)
Record uploaded_file : Type := UploadedFile {
  file_name : string;
  file_value : string;
  file_type : string
}.

(** A [Response] with its [text]. *)
Record http_reply : Type := HttpReply { reply : response; reply_text : string }.

(** An exception with its [response] attribute: the reply for the
    [HTTPError] of [raise_for_status], [None] where the exception has none. *)
Record request_error : Type := RequestError {
  error : exn;
  error_response : option http_reply
}.

(** [requests.post(url, files={"file": (name, value, type)})]. *)
Definition upload_post : Type := string -> uploaded_file -> request_error + http_reply.

(** The calls of the section: the two widgets and the calls of the page. *)
Inductive upload_call : Type :=
| FileUploader (label type key : string)
| Button (label key : string)
| Drawn (c : ui_call).

(** [Response.ok], which is also [bool(response)]. *)
Definition response_ok (r : response) : bool :=
  match raise_for_status r with
  | Ok _ => true
  | Raise _ => false
  end.

Section Upload.
Context `{PyRuntime}.

(** The body of the [try]: the request, and the success message. *)
Definition upload_request (post : upload_post) (fastapi_base_url : string)
    (file : uploaded_file) : request_error + string :=
  match post (fastapi_base_url +:+ "/upload-document/") file with
  | inl err => inl err
  | inr upload_response =>
      match raise_for_status (reply upload_response) with
      | Raise e => inl (RequestError e (Some upload_response))
      | Ok _ =>
          match
            upload_data ← response_json (reply upload_response);
            filename ← dict_get upload_data "filename" JNull;
            processed_chunks ← dict_get upload_data "processed_chunks" JNull;
            mret ("PDF '" +:+ format_value filename
                    +:+ "' uploaded successfully! Processed "
                    +:+ format_value processed_chunks +:+ " pages.")
          with
          | Ok message => inr message
          | Raise e => inl (RequestError e None)
          end
      end
  end.

(** [e.response.text if e.response else 'No response from backend.']. *)
Definition response_text_or_none (err : request_error) : string :=
  match error_response err with
  | Some r => if response_ok (reply r) then reply_text r else "No response from backend."
  | None => "No response from backend."
  end.

Definition upload_handlers : list (exn_class * (request_error -> ui_call)) :=
  [ (Requests_ConnectionError, fun _ =>
       Error "Could not connect to the FastAPI backend. Please ensure it's running.");
    (RequestException, fun err =>
       Error ("Error uploading document: " +:+ exn_str (error err) +:+ ". Response: "
                +:+ response_text_or_none err));
    (Exception_, fun err =>
       Error ("An unexpected error occurred during upload: " +:+ exn_str (error err))) ].

(** The section: what it draws, and the exception that leaves it, if any.
    [uploaded] is what [st.file_uploader] returns and [clicked] what
    [st.button] returns in this run. *)
Definition document_upload_section (post : upload_post) (fastapi_base_url : string)
    (uploaded : option uploaded_file) (clicked : bool)
    : outcome unit * list upload_call :=
  let widgets :=
    [Drawn (Header "Upload Document to Knowledge Base");
     Drawn (Expander "Upload New Document (PDF Only)");
     FileUploader "Choose a PDF file" "pdf" "pdf_uploader";
     Button "Upload PDF" "upload_pdf_button"] in
  let closing := [Drawn (Markdown (JStr "---"))] in
  if clicked then
    match uploaded with
    | Some file =>
        let spinner := Drawn (Spinner ("Uploading " +:+ file_name file +:+ "...")) in
        match upload_request post fastapi_base_url file with
        | inr message =>
            (Ok tt, widgets ++ [spinner; Drawn (Success message)] ++ closing)
        | inl err =>
            match select_handler upload_handlers (error err) with
            | Some handler =>
                (Ok tt, widgets ++ [spinner; Drawn (handler err)] ++ closing)
            | None => (Raise (error err), widgets ++ [spinner])
            end
        end
    | None =>
        (Ok tt,
         widgets
         ++ [Drawn (Warning "Please upload a PDF file before clicking 'Upload PDF'.")]
         ++ closing)
    end
  else (Ok tt, widgets ++ closing).
End Upload.

(** * The vocabulary of the properties *)

Section Observations.
Context `{PyRuntime}.

(** A computation that only draws: it behaves as one fixed list of calls
    added to the page, followed by one fixed outcome, whatever the world. *)
Definition draws {A : Type} (m : M A) : Prop :=
  exists (o : outcome A) (cs : list ui_call),
    forall w, m w = (o, World (session w) (page w ++ cs)).

(** What the trace display does, read off a run on a blank page: its
    outcome and the calls it makes. *)
Definition present (trace_events : value) : outcome unit * list ui_call :=
  let '(o, w) := display_trace_events trace_events (World empty_session []) in
  (o, page w).

(** All three keys are set. *)
Definition initialized (s : session_state) : Prop :=
  is_Some (messages s) /\ is_Some (session_id s) /\ is_Some (web_search_enabled s).

(** The content of the assistant message the [except] chain of
    [render_chat_interface] appends for an exception. *)
Definition failure_text (e : exn) : string :=
  if issubclass (exn_cls e) Requests_ConnectionError then
    "Error: Could not connect to the backend."
  else if issubclass (exn_cls e) RequestException then "Error: " +:+ exn_str e
  else if issubclass (exn_cls e) Json_JSONDecodeError then
    "Error: Invalid response from backend."
  else "Unexpected Error: " +:+ exn_str e.

(** What a turn with a submitted prompt leaves behind: the way it ended and
    the messages it appended. *)
Definition turn_summary (post : http_post) (url sid prompt : string) (b : bool)
    : turn_state * list message :=
  match call_backend_chat_api post url sid prompt b with
  | Ok (agent_response, trace_events) =>
      match fst (present trace_events) with
      | Ok _ =>
          (Completed,
           [Message "user" (JStr prompt); Message "assistant" agent_response])
      | Raise e =>
          (Failed,
           [Message "user" (JStr prompt); Message "assistant" agent_response;
            Message "assistant" (JStr (failure_text e))])
      end
  | Raise e =>
      (Failed,
       [Message "user" (JStr prompt); Message "assistant" (JStr (failure_text e))])
  end.

(** The way a script run ends and the messages it appends, given the session
    identifier and the web-search flag the chat section finds. *)
Definition run_summary (r : script_run) (sid : string) (b : bool)
    : turn_state * list message :=
  match submitted (chat_input r) with
  | Some prompt =>
      turn_summary (requests_post r) (load_config (getenv_base_url r)) sid prompt b
  | None => (Idle, [])
  end.

(** Successive script runs of one session: the way each ended, and the
    world after the last. *)
Fixpoint run_script (rs : list script_run) (w : world)
    : list (outcome turn_state) * world :=
  match rs with
  | [] => ([], w)
  | r :: rs' =>
      let '(o, w') := main r w in
      let '(os, w'') := run_script rs' w' in
      (o :: os, w'')
  end.

Definition is_completed (o : outcome turn_state) : bool :=
  match o with Ok Completed => true | _ => false end.

Definition is_idle (o : outcome turn_state) : bool :=
  match o with Ok Idle => true | _ => false end.

(** The number of turns that ended in [Completed]. *)
Definition successful_turns (os : list (outcome turn_state)) : nat :=
  length (List.filter is_completed os).

(** Every run was a rerun without submission or a successful turn. *)
Definition no_failed_turn (os : list (outcome turn_state)) : bool :=
  forallb (fun o => is_completed o || is_idle o) os.

(** The world of a new session: initialization run on empty state. *)
Definition fresh_world (uuid : string) (pg : list ui_call) : world :=
  snd (init_session_state uuid (World empty_session pg)).

Definition turn_roles : list string := ["user"; "assistant"].

(** The calls [display_trace_event] makes, by the line of the source that
    makes them. *)
Definition step_heading (name : string) (step : value) : ui_call :=
  Subheader (default "⚙️" (icon_map !! name) +:+ " Step " +:+ format_value step
               +:+ ": " +:+ name).

Definition description_line (description : value) : ui_call :=
  Write ("**Description:** " +:+ format_value description).

Definition rag_positive (verdict : value) : ui_call :=
  Success ("**RAG Verdict:** " +:+ format_value verdict
             +:+ " - Relevant info found in Knowledge Base.").

Definition rag_cautionary (verdict : value) : ui_call :=
  Warning ("**RAG Verdict:** " +:+ format_value verdict
             +:+ " - No sufficient info in Knowledge Base. Diverting to Web Search.").

Definition rag_excerpt (summary : value) : ui_call :=
  Markdown (JStr ("**Retrieved Content Summary:** `" +:+ format_value summary +:+ "`")).

Definition web_excerpt (summary : value) : ui_call :=
  Markdown (JStr ("**Web Search Content Summary:** `" +:+ format_value summary +:+ "`")).

Definition separator : ui_call := Markdown (JStr "---").

(** A call that shows [summary] between backquotes. *)
Definition quotes_summary (summary : string) (c : ui_call) : bool :=
  match c with
  | Markdown (JStr s) => is_substring ("`" +:+ summary +:+ "`") s
  | _ => false
  end.

Definition fallback_response : value :=
  JStr "Sorry, I couldn't get a response from the agent.".

End Observations.

Section TraceObservations.
Context `{PyRuntime}.

(** What the display of one event does, read off a run on a blank page. *)
Definition event_record (event : value) : outcome unit * list ui_call :=
  let '(o, w) := display_trace_event event (World empty_session []) in
  (o, page w).

Definition known_nodes : list string :=
  ["router"; "rag_lookup"; "web_search"; "answer"; "__end__"].

(** The lines between the description and the separator that the [if]/[elif]
    chain of [display_trace_events] draws for a node name and a details
    mapping: the verdict line, and the excerpt when there is a summary, for
    rag_lookup with a verdict; the web excerpt for web_search with a
    summary; in every other case the details themselves when they are not
    empty. *)
Definition detail_lines (name : string) (d : gmap string value) : list ui_call :=
  match (if bool_decide (name = "rag_lookup") then d !! "sufficiency_verdict" else None) with
  | Some verdict =>
      (if eq_str verdict "Sufficient" then rag_positive verdict else rag_cautionary verdict)
      :: match d !! "retrieved_content_summary" with
         | Some summary => [rag_excerpt summary]
         | None => []
         end
  | None =>
      match (if bool_decide (name = "web_search")
             then d !! "retrieved_content_summary" else None) with
      | Some summary => [web_excerpt summary]
      | None => if (size d =? 0)%nat then [] else [Json (JObj d)]
      end
  end.





End TraceObservations.

(** * Sample inputs *)

(** One interpreter to evaluate examples with: integers print in decimal and
    the constants by name; what the examples below never print gets a
    placeholder. *)
Definition sample_runtime : PyRuntime := {|
  py_str := fun v =>
    match v with
    | JNull => "None"
    | JBool true => "True"
    | JBool false => "False"
    | JInt n => pretty n
    | _ => "<" +:+ type_name v +:+ ">"
    end;
  fault_text := fun f =>
    match f with
    | NotSubscriptable t => "'" +:+ t +:+ "' object is not subscriptable"
    | NotIterable t => "'" +:+ t +:+ "' object is not iterable"
    | NoAttribute t a => "'" +:+ t +:+ "' object has no attribute '" +:+ a +:+ "'"
    | _ => "<interpreter message>"
    end
|}.

Definition blank : world := World empty_session [].

(** Trace events. *)
Definition router_event : gmap string value :=
  <["step" := JInt 1]> (<["node_name" := JStr "router"]>
    (<["description" := JStr "Routing the query"]>
      (<["details" := JObj (<["decision" := JStr "rag"]> ∅)]> ∅))).

Definition rag_details : gmap string value :=
  <["sufficiency_verdict" := JStr "Sufficient"]>
    (<["retrieved_content_summary" := JStr "Paris is the capital of France"]> ∅).

Definition rag_event : gmap string value :=
  <["step" := JInt 2]> (<["node_name" := JStr "rag_lookup"]>
    (<["description" := JStr "Looking up the knowledge base"]>
      (<["details" := JObj rag_details]> ∅))).

Definition summary_only_details : gmap string value :=
  <["retrieved_content_summary" := JStr "abc"]> ∅.

Definition rag_event_without_verdict : gmap string value :=
  <["step" := JInt 2]> (<["node_name" := JStr "rag_lookup"]>
    (<["description" := JStr "Looking up the knowledge base"]>
      (<["details" := JObj summary_only_details]> ∅))).

Definition event_without_details : gmap string value :=
  <["step" := JInt 1]> (<["node_name" := JStr "router"]>
    (<["description" := JStr "Routing the query"]> ∅)).

(** Backend answers. *)
Definition answer_body : gmap string value :=
  <["response" := JStr "Paris."]>
    (<["trace_events" := JArr [JObj router_event; JObj rag_event]]> ∅).

Definition good_response : response := Response 200 "" (Some (JObj answer_body)) "".

Definition bad_trace_body : gmap string value :=
  <["response" := JStr "Paris."]>
    (<["trace_events" := JArr [JObj event_without_details]]> ∅).

Definition bad_trace_response : response :=
  Response 200 "" (Some (JObj bad_trace_body)) "".

Definition no_answer_bad_trace_body : gmap string value :=
  <["trace_events" := JArr [JObj event_without_details]]> ∅.

Definition no_answer_bad_trace_response : response :=
  Response 200 "" (Some (JObj no_answer_bad_trace_body)) "".

Definition empty_object_response : response := Response 200 "" (Some (JObj ∅)) "".

Definition not_json_response : response :=
  Response 200 "" None "Expecting value: line 1 column 1 (char 0)".

Definition server_error_response : response :=
  Response 500 "500 Server Error: Internal Server Error for url: http://localhost:8000/chat/"
    None "".

(** Networks and script runs. *)
Definition answering (r : response) : http_post := fun _ _ => Ok r.

Definition unreachable : http_post := fun _ _ =>
  Raise (Exn Requests_ConnectionError "Connection refused").

Definition ask (prompt : string) (post : http_post) : script_run :=
  ScriptRun None "4f5c" [] (fun b => b) (Some prompt) post.

Definition rerun : script_run :=
  ScriptRun None "9a1e" [] (fun b => negb b) None unreachable.

Definition question : string := "What is the capital of France?".

Definition two_turns_and_a_rerun : list script_run :=
  [ask question (answering good_response); rerun;
   ask "And of Italy?" (answering empty_object_response)].

Definition mixed_runs : list script_run :=
  [ask question (answering good_response); ask question unreachable; rerun;
   ask question (answering not_json_response);
   ask question (answering bad_trace_response)].

(** More trace events. *)
Definition web_details : gmap string value :=
  <["retrieved_content_summary" := JStr "Rome is the capital of Italy"]>
    (<["source_count" := JInt 3]> ∅).

Definition web_event : gmap string value :=
  <["step" := JInt 3]> (<["node_name" := JStr "web_search"]>
    (<["description" := JStr "Searching the web"]>
      (<["details" := JObj web_details]> ∅))).

Definition planner_event : gmap string value :=
  <["step" := JInt 4]> (<["node_name" := JStr "planner"]>
    (<["description" := JStr "Planning"]>
      (<["details" := JObj (<["plan" := JStr "answer directly"]> ∅)]> ∅))).

(** More backend answers and networks. *)
Definition list_body_response : response := Response 200 "" (Some (JArr [])) "".


Definition stored_session : world :=
  World (SessionState (Some [greeting]) (Some "4f5c") (Some true)) [].

(** Uploads. *)
Definition report_pdf : uploaded_file :=
  UploadedFile "report.pdf" "%PDF-1.7" "application/pdf".

Definition upload_ok_body : gmap string value :=
  <["filename" := JStr "report.pdf"]> (<["processed_chunks" := JInt 12]> ∅).

(** The double quote, to write raw JSON text with. *)
Definition dq : string := String (Ascii.ascii_of_nat 34) EmptyString.

Definition upload_ok_reply : http_reply :=
  HttpReply (Response 200 "" (Some (JObj upload_ok_body)) "")
    ("{" +:+ dq +:+ "filename" +:+ dq +:+ ": " +:+ dq +:+ "report.pdf" +:+ dq +:+ ", "
       +:+ dq +:+ "processed_chunks" +:+ dq +:+ ": 12}").

Definition upload_rejected_reply : http_reply :=
  HttpReply
    (Response 400
       "400 Client Error: Bad Request for url: http://localhost:8000/upload-document/"
       (Some (JObj (<["detail" := JStr "Only PDF files are allowed."]> ∅))) "")
    ("{" +:+ dq +:+ "detail" +:+ dq +:+ ": " +:+ dq +:+ "Only PDF files are allowed."
       +:+ dq +:+ "}").

Definition upload_answering (r : http_reply) : upload_post := fun _ _ => inr r.

Definition upload_unreachable : upload_post := fun _ _ =>
  inl (RequestError (Exn Requests_ConnectionError "Connection refused") None).

Definition upload_endpoint_only (r : http_reply) : upload_post := fun url _ =>
  if bool_decide (url = "http://localhost:8000/upload-document/") then inr r
  else inl (RequestError (Exn Requests_ConnectionError "Connection refused") None).

(** * Properties *)

(** ** Running computations *)

Lemma bind_run {A B : Type} (m : M A) (k : A -> M B) (w : world) :
  (m ≫= k) w =
  match m w with
  | (Ok a, w') => k a w'
  | (Raise e, w') => (Raise e, w')
  end.
Proof. reflexivity. Qed.

Lemma bind_ok {A B : Type} (m : M A) (k : A -> M B) (w w' : world) (a : A) :
  m w = (Ok a, w') -> (m ≫= k) w = k a w'.
Proof. intros Hm. rewrite bind_run, Hm. reflexivity. Qed.

Lemma bind_raise {A B : Type} (m : M A) (k : A -> M B) (w w' : world) (e : exn) :
  m w = (Raise e, w') -> (m ≫= k) w = (Raise e, w').
Proof. intros Hm. rewrite bind_run, Hm. reflexivity. Qed.

Lemma draws_skip : draws skip.
Proof.
  exists (Ok tt), []. intros [s p]. unfold skip. simpl. by rewrite app_nil_r.
Qed.

Lemma draws_ret {A : Type} (a : A) : draws (mret a : M A).
Proof.
  exists (Ok a), []. intros [s p]. cbn. by rewrite app_nil_r.
Qed.

Lemma draws_emit (c : ui_call) : draws (emit c).
Proof. exists (Ok tt), [c]. reflexivity. Qed.

Lemma draws_lift {A : Type} (o : outcome A) : draws (lift o).
Proof.
  exists o, []. intros [s p]. unfold lift. simpl. by rewrite app_nil_r.
Qed.

Lemma draws_bind {A B : Type} (m : M A) (k : A -> M B) :
  draws m -> (forall a, draws (k a)) -> draws (m ≫= k).
Proof.
  intros (o & cs & Hm) Hk. destruct o as [a|e].
  - destruct (Hk a) as (o' & cs' & Hka). exists o', (cs ++ cs'). intros w.
    rewrite (bind_ok _ _ _ _ _ (Hm w)), Hka. simpl. by rewrite app_assoc.
  - exists (Raise e), cs. intros w. by rewrite (bind_raise _ _ _ _ _ (Hm w)).
Qed.

Lemma draws_if {A : Type} (b : bool) (m1 m2 : M A) :
  draws m1 -> draws m2 -> draws (if b then m1 else m2).
Proof. by destruct b. Qed.

Lemma draws_for_each {A : Type} (xs : list A) (body : A -> M unit) :
  (forall x, draws (body x)) -> draws (for_each xs body).
Proof.
  intros Hbody. induction xs as [|x xs IH]; simpl.
  - apply draws_skip.
  - apply draws_bind; [apply Hbody | intros _; apply IH].
Qed.

Create HintDb draw discriminated.
#[export] Hint Resolve draws_skip draws_ret draws_emit draws_lift draws_for_each : draw.
#[export] Hint Extern 2 (draws (_ ≫= _)) => apply draws_bind; [| intros ?] : draw.
#[export] Hint Extern 2 (draws (if _ then _ else _)) => apply draws_if : draw.

Section TraceDisplay.
Context `{PyRuntime}.

Lemma display_trace_event_draws (event : value) : draws (display_trace_event event).
Proof. unfold display_trace_event. auto 30 with draw. Qed.

Lemma display_trace_events_draws (trace_events : value) :
  draws (display_trace_events trace_events).
Proof.
  unfold display_trace_events.
  auto 10 using display_trace_event_draws with draw.
Qed.

Lemma display_trace_events_present (trace_events : value) (w : world) :
  display_trace_events trace_events w =
  (fst (present trace_events),
   World (session w) (page w ++ snd (present trace_events))).
Proof.
  destruct (display_trace_events_draws trace_events) as (o & cs & Hd).
  unfold present. rewrite (Hd (World empty_session [])), (Hd w). reflexivity.
Qed.
End TraceDisplay.

(** ** The session store *)

Section SessionStore.
Context `{PyRuntime}.

Lemma init_session_state_ok (uuid : string) (w : world) :
  fst (init_session_state uuid w) = Ok tt /\
  initialized (session (snd (init_session_state uuid w))) /\
  page (snd (init_session_state uuid w)) = page w.
Proof.
  destruct w as [[[ms|] [sid|] [b|]] pg]; cbn; unfold initialized; cbn; eauto 10.
Qed.

Lemma init_session_state_noop (uuid : string) (w : world) :
  initialized (session w) -> init_session_state uuid w = (Ok tt, w).
Proof.
  destruct w as [[ms sid b] pg]. intros ([ms' Hms] & [sid' Hsid] & [b' Hb]).
  simpl in *. subst. reflexivity.
Qed.

Lemma init_session_state_keeps_id (uuid sid : string) (w : world) :
  session_id (session w) = Some sid ->
  session_id (session (snd (init_session_state uuid w))) = Some sid.
Proof.
  destruct w as [[[ms|] sid' [b|]] pg]; cbn; intros ->; reflexivity.
Qed.

(** C3. Initialization run on an empty session state leaves a message
    sequence of length exactly 1 whose only entry has role assistant (and
    sets the session identifier to the freshly generated one). *)
Theorem fresh_session_has_one_assistant_message (uuid : string) (pg : list ui_call) :
  exists ms,
    init_session_state uuid (World empty_session pg)
      = (Ok tt, World (SessionState (Some ms) (Some uuid) (Some true)) pg) /\
    length ms = 1 /\
    role <$> ms = ["assistant"].
Proof. exists [greeting]. repeat split. Qed.

(** C9. Initialization is idempotent: once [init_session_state] has run,
    running it again, any number of times and with any freshly generated
    identifiers, changes nothing: the session identifier, the message
    sequence and the rest of the state stay as the first run left them. *)
Theorem init_session_state_idempotent (uuid : string) (uuids : list string) (w : world) :
  for_each uuids init_session_state (snd (init_session_state uuid w))
    = (Ok tt, snd (init_session_state uuid w)).
Proof.
  destruct (init_session_state_ok uuid w) as (_ & Hinit & _).
  induction uuids as [|u us IH]; simpl.
  - reflexivity.
  - erewrite bind_ok by (apply init_session_state_noop, Hinit). apply IH.
Qed.
End SessionStore.

(** ** A user turn *)

Section Turn.
Context `{PyRuntime}.

Lemma issubclass_Exception (c : exn_class) : issubclass c Exception_ = true.
Proof. destruct c; reflexivity. Qed.

(** Every exception finds a handler, and the handler appends one assistant
    message and leaves the turn failed. *)
Lemma chat_handlers_run (e : exn) (w : world) (ms : list message)
    (sid : option string) (b : option bool) :
  session w = SessionState (Some ms) sid b ->
  exists h c,
    select_handler chat_handlers e = Some h /\
    h e w = (Ok Failed,
             World (SessionState
                      (Some (ms ++ [Message "assistant" (JStr (failure_text e))]))
                      sid b)
                   (page w ++ [Error c])).
Proof.
  destruct w as [s pg]. simpl. intros ->.
  destruct e as [c txt].
  destruct c; (do 2 eexists); (split; [reflexivity|]); reflexivity.
Qed.

Lemma display_chat_history_run (w : world) (ms : list message) :
  messages (session w) = Some ms ->
  exists cs, display_chat_history w = (Ok tt, World (session w) (page w ++ cs)).
Proof.
  intros Hms. unfold display_chat_history.
  assert (Hget : get_messages w = (Ok ms, w)) by (unfold get_messages; by rewrite Hms).
  rewrite (bind_ok _ _ _ _ _ Hget). clear Hget Hms.
  revert w. induction ms as [|m ms IH]; intros [s pg]; simpl.
  - exists []. unfold skip. simpl. by rewrite app_nil_r.
  - erewrite bind_ok by reflexivity.
    edestruct IH as (cs & ->).
    simpl. exists (ChatMessage (role m) :: Markdown (content m) :: cs).
    by rewrite <- !app_assoc.
Qed.
Lemma render_chat_interface_idle (post : http_post) (url : string)
    (ci : option string) (w : world) (ms : list message) :
  messages (session w) = Some ms ->
  submitted ci = None ->
  exists cs,
    render_chat_interface post url ci w = (Ok Idle, World (session w) (page w ++ cs)).
Proof.
  intros Hms Hsub. unfold render_chat_interface. rewrite Hsub.
  erewrite bind_ok by reflexivity.
  edestruct (display_chat_history_run) as (cs & Hcs); [|erewrite bind_ok by apply Hcs].
  { simpl. apply Hms. }
  simpl. exists (Header "Chat with the Agent" :: cs). by rewrite <- app_assoc.
Qed.

Lemma render_chat_interface_turn (post : http_post) (url : string)
    (ci : option string) (prompt : string) (w : world) (ms : list message)
    (sid : string) (b : bool) :
  session w = SessionState (Some ms) (Some sid) (Some b) ->
  submitted ci = Some prompt ->
  exists pg,
    render_chat_interface post url ci w =
    (Ok (fst (turn_summary post url sid prompt b)),
     World (SessionState (Some (ms ++ snd (turn_summary post url sid prompt b)))
              (Some sid) (Some b)) pg).
Proof.
  intros Hs Hsub. unfold render_chat_interface. rewrite Hsub.
  erewrite bind_ok by reflexivity.
  edestruct (display_chat_history_run) as (cs & Hcs); [|erewrite bind_ok by apply Hcs].
  { simpl. rewrite Hs. reflexivity. }
  destruct w as [s pg]. simpl in Hs. subst s. simpl.
  do 5 (erewrite bind_ok by reflexivity).
  unfold try_except, turn_summary.
  do 2 (erewrite bind_ok by reflexivity).
  destruct (call_backend_chat_api post url sid prompt b) as [[a t]|e] eqn:Hcall.
  - erewrite bind_ok by reflexivity. cbn beta iota.
    do 2 (erewrite bind_ok by reflexivity).
    rewrite bind_run, display_trace_events_present.
    destruct (fst (present t)) as [[]|e].
    + simpl. rewrite <- (app_assoc ms). eexists. reflexivity.
    + edestruct (chat_handlers_run e) as (h & c & -> & ->); [reflexivity|].
      simpl. rewrite <- !(app_assoc ms). eexists. reflexivity.
  - erewrite bind_raise by reflexivity.
    edestruct (chat_handlers_run e) as (h & c & -> & ->); [reflexivity|].
    simpl. rewrite <- (app_assoc ms). eexists. reflexivity.
Qed.
End Turn.

(** ** Script runs *)

Section Runs.
Context `{PyRuntime}.

Lemma initialized_shape (s : session_state) :
  initialized s ->
  exists ms sid b, s = SessionState (Some ms) (Some sid) (Some b).
Proof.
  destruct s as [ms sid b]. intros ([ms' Hms] & [sid' Hsid] & [b' Hb]).
  simpl in *. subst. eauto.
Qed.

Lemma main_initialized (r : script_run) (w : world) (ms : list message)
    (sid : string) (b : bool) :
  session w = SessionState (Some ms) (Some sid) (Some b) ->
  exists pg,
    main r w =
    (Ok (fst (run_summary r sid (checkbox r b))),
     World (SessionState (Some (ms ++ snd (run_summary r sid (checkbox r b))))
              (Some sid) (Some (checkbox r b))) pg).
Proof.
  intros Hs. unfold main.
  erewrite bind_ok by (apply init_session_state_noop; rewrite Hs;
                       unfold initialized; simpl; eauto).
  destruct w as [s pg]. simpl in Hs. subst s.
  do 3 (erewrite bind_ok by reflexivity).
  unfold run_summary. destruct (submitted (chat_input r)) as [prompt|] eqn:Hsub.
  - edestruct render_chat_interface_turn as (pg' & ->); [reflexivity|apply Hsub|].
    eexists. reflexivity.
  - edestruct render_chat_interface_idle as (cs & ->); [reflexivity|apply Hsub|].
    simpl. rewrite app_nil_r. eexists. reflexivity.
Qed.

Lemma main_after_init (r : script_run) (w : world) :
  main r w = main r (snd (init_session_state (uuid4 r) w)).
Proof.
  destruct (init_session_state_ok (uuid4 r) w) as (Hok & Hinit & _).
  unfold main. rewrite !(bind_run (init_session_state (uuid4 r))).
  rewrite (init_session_state_noop _ _ Hinit).
  destruct (init_session_state (uuid4 r) w) as [o w1]. simpl in *. by subst o.
Qed.

Lemma main_keeps_session_id (r : script_run) (w : world) (sid : string) :
  session_id (session w) = Some sid ->
  session_id (session (snd (main r w))) = Some sid.
Proof.
  intros Hsid. rewrite main_after_init.
  pose proof (init_session_state_keeps_id (uuid4 r) sid w Hsid) as Hsid1.
  destruct (init_session_state_ok (uuid4 r) w) as (_ & Hinit & _).
  destruct (initialized_shape _ Hinit) as (ms & sid' & b & Hs).
  rewrite Hs in Hsid1. simpl in Hsid1. injection Hsid1 as ->.
  destruct (main_initialized r _ ms sid b Hs) as (pg & ->). reflexivity.
Qed.

Lemma run_summary_cases (r : script_run) (sid : string) (b : bool) :
  match fst (run_summary r sid b) with
  | Idle => snd (run_summary r sid b) = []
  | Completed =>
      exists p a, snd (run_summary r sid b) = [Message "user" p; Message "assistant" a]
  | Failed => True
  end.
Proof.
  unfold run_summary, turn_summary.
  destruct (submitted (chat_input r)); [|reflexivity].
  destruct (call_backend_chat_api _ _ _ _ _) as [[a t]|e]; [|exact I].
  destruct (fst (present t)); simpl; eauto.
Qed.

Lemma turn_roles_snoc (k : nat) :
  concat (replicate k turn_roles) ++ turn_roles = concat (replicate (S k) turn_roles).
Proof.
  induction k as [|k IH]; [reflexivity|].
  change (concat (replicate (S k) turn_roles))
    with (turn_roles ++ concat (replicate k turn_roles)).
  rewrite <- app_assoc, IH. reflexivity.
Qed.

Lemma turn_roles_lookup (k i : nat) :
  i < k ->
  concat (replicate k turn_roles) !! (2 * i) = Some "user" /\
  concat (replicate k turn_roles) !! (1 + 2 * i) = Some "assistant".
Proof.
  revert i. induction k as [|k IH]; intros i Hi; [lia|].
  destruct i as [|i]; [by split|].
  replace (2 * S i) with (S (S (2 * i))) by lia.
  replace (1 + S (S (2 * i))) with (S (S (1 + 2 * i))) by lia.
  apply IH. lia.
Qed.

Lemma run_script_cons_fst (r : script_run) (rs : list script_run) (w : world) :
  fst (run_script (r :: rs) w)
    = fst (main r w) :: fst (run_script rs (snd (main r w))).
Proof. simpl. destruct (main r w), (run_script rs _). reflexivity. Qed.

Lemma run_script_cons_snd (r : script_run) (rs : list script_run) (w : world) :
  snd (run_script (r :: rs) w) = snd (run_script rs (snd (main r w))).
Proof. simpl. destruct (main r w), (run_script rs _). reflexivity. Qed.

Lemma no_failed_turn_cons (o : outcome turn_state) (os : list (outcome turn_state)) :
  no_failed_turn (o :: os) = (is_completed o || is_idle o) && no_failed_turn os.
Proof. reflexivity. Qed.

Lemma successful_turns_cons (o : outcome turn_state) (os : list (outcome turn_state)) :
  successful_turns (o :: os) = Nat.b2n (is_completed o) + successful_turns os.
Proof. unfold successful_turns. simpl. by destruct (is_completed o). Qed.

(** The roles of the stored messages after any runs without a failed turn:
    the greeting, then one user/assistant pair per successful turn. *)
Lemma roles_after_runs (rs : list script_run) :
  forall (w : world) (ms : list message) (sid : string) (b : bool) (k : nat),
    session w = SessionState (Some ms) (Some sid) (Some b) ->
    role <$> ms = "assistant" :: concat (replicate k turn_roles) ->
    no_failed_turn (fst (run_script rs w)) = true ->
    exists ms',
      messages (session (snd (run_script rs w))) = Some ms' /\
      role <$> ms' =
        "assistant" ::
        concat (replicate (k + successful_turns (fst (run_script rs w))) turn_roles).
Proof.
  induction rs as [|r rs IH]; intros w ms sid b k Hs Hroles Hok.
  - simpl. rewrite Hs. exists ms. split; [reflexivity|].
    unfold successful_turns. simpl. by rewrite Nat.add_0_r.
  - rewrite run_script_cons_fst, no_failed_turn_cons in Hok.
    rewrite run_script_cons_fst, run_script_cons_snd, successful_turns_cons.
    destruct (main_initialized r w ms sid b Hs) as (pg & Hmain).
    rewrite Hmain in Hok |- *. cbn [fst snd] in Hok |- *.
    pose proof (run_summary_cases r sid (checkbox r b)) as Hcases.
    apply andb_prop in Hok as [Ho Hos].
    destruct (fst (run_summary r sid (checkbox r b))); try discriminate Ho.
    + rewrite Hcases, app_nil_r in Hos |- *.
      destruct (IH (World _ pg) ms sid (checkbox r b) k eq_refl Hroles Hos)
        as (ms' & Hms' & Hr').
      exists ms'. split; [exact Hms'|exact Hr'].
    + destruct Hcases as (p & a & Happ). rewrite Happ in Hos |- *.
      assert (Hroles' : role <$> (ms ++ [Message "user" p; Message "assistant" a])
                        = "assistant" :: concat (replicate (S k) turn_roles)).
      { rewrite fmap_app, Hroles. simpl. f_equal. apply (turn_roles_snoc k). }
      destruct (IH (World _ pg) _ sid (checkbox r b) (S k) eq_refl Hroles' Hos)
        as (ms' & Hms' & Hr').
      exists ms'. split; [exact Hms'|].
      rewrite Hr'. cbn [is_completed Nat.b2n]. by rewrite Nat.add_succ_r.
Qed.

(** C4. The session identifier is never changed once set: after any
    sequence of script runs (reruns without submission, successful turns
    and failed turns alike, each including a repeated initialization) the
    stored session identifier is the one that was stored before. *)
Theorem session_id_never_changes (rs : list script_run) (w : world) (sid : string) :
  session_id (session w) = Some sid ->
  session_id (session (snd (run_script rs w))) = Some sid.
Proof.
  revert w. induction rs as [|r rs IH]; intros w Hsid; [exact Hsid|].
  simpl. pose proof (main_keeps_session_id r w sid Hsid) as Hmain.
  destruct (main r w) as [o w']. simpl in Hmain.
  specialize (IH w' Hmain). destruct (run_script rs w') as [os w'']. exact IH.
Qed.







End Runs.

(** ** The rules of the trace display *)

Section TraceRules.
Context `{PyRuntime}.

Lemma eq_str_true (v : value) (s : string) : eq_str v s = true <-> v = JStr s.
Proof.
  destruct v; simpl; try (split; [discriminate|congruence]).
  rewrite bool_decide_eq_true. split; congruence.
Qed.

Lemma eq_str_refl (s : string) : eq_str (JStr s) s = true.
Proof. by apply eq_str_true. Qed.

Lemma eq_str_false (v : value) (s : string) : v <> JStr s -> eq_str v s = false.
Proof.
  intros Hne. destruct (eq_str v s) eqn:Heq; [|reflexivity].
  by apply eq_str_true in Heq.
Qed.

Lemma truthy_nonempty_dict (d : gmap string value) (k : string) (x : value) :
  d !! k = Some x -> truthy (JObj d) = true.
Proof.
  intros Hk. simpl. destruct (size d) eqn:Hsize; [|reflexivity].
  apply map_size_empty_iff in Hsize. subst d. by rewrite lookup_empty in Hk.
Qed.

Ltac unfold_event :=
  unfold display_trace_event, mbind, M_bind, outcome_bind, lift, emit, skip,
    subscript, contains, and_then, icon_for.

Ltac run_event :=
  unfold_event;
  repeat (cbn -[eq_str truthy format_value];
          rewrite ?eq_str_refl;
          repeat match goal with
                 | Hk : ?m !! ?k = _ |- context [?m !! ?k] => rewrite Hk
                 | Hb : ?b = _ |- context [if ?b then _ else _] => rewrite Hb
                 end).

Ltac close_event :=
  cbn -[format_value]; rewrite <- ?app_assoc; reflexivity.

(** C6. For a trace event with node_name rag_lookup whose details contain a
    sufficiency_verdict (and that carries step and description): when the
    verdict equals "Sufficient" the display marks a positive outcome
    ([st.success]) with the message "Relevant info found in Knowledge
    Base"; for any other verdict value it marks a cautionary outcome
    ([st.warning]) saying that the system diverts to web search. *)
Theorem rag_lookup_verdict_display (ev d : gmap string value)
    (step description verdict : value) (w : world) :
  ev !! "node_name" = Some (JStr "rag_lookup") ->
  ev !! "step" = Some step ->
  ev !! "description" = Some description ->
  ev !! "details" = Some (JObj d) ->
  d !! "sufficiency_verdict" = Some verdict ->
  exists excerpt,
    (verdict = JStr "Sufficient" ->
     display_trace_event (JObj ev) w =
     (Ok tt,
      World (session w)
        (page w ++
         [step_heading "rag_lookup" step; description_line description;
          Success "**RAG Verdict:** Sufficient - Relevant info found in Knowledge Base."]
         ++ excerpt ++ [separator]))) /\
    (verdict <> JStr "Sufficient" ->
     display_trace_event (JObj ev) w =
     (Ok tt,
      World (session w)
        (page w ++
         [step_heading "rag_lookup" step; description_line description;
          Warning ("**RAG Verdict:** " +:+ format_value verdict +:+
                   " - No sufficient info in Knowledge Base. Diverting to Web Search.")]
         ++ excerpt ++ [separator]))).
Proof.
  intros Hn Hs Hd Hdet Hv.
  destruct (d !! "retrieved_content_summary") as [summary|] eqn:Hsum.
  - exists [rag_excerpt summary]. split.
    + intros ->. run_event. close_event.
    + intros Hne%(eq_str_false _ "Sufficient"). run_event. close_event.
  - exists []. split.
    + intros ->. run_event. close_event.
    + intros Hne%(eq_str_false _ "Sufficient"). run_event. close_event.
Qed.
Lemma is_prefix_refl (p : string) : is_prefix p p = true.
Proof.
  induction p as [|a p IH]; [reflexivity|]. simpl.
  by rewrite bool_decide_eq_true_2, IH.
Qed.

Lemma is_substring_app_l (t p : string) : is_substring p (t +:+ p) = true.
Proof.
  induction t as [|a t IH].
  - destruct p; simpl; [reflexivity|].
    by rewrite bool_decide_eq_true_2, is_prefix_refl.
  - change (String a t +:+ p) with (String a (t +:+ p)).
    simpl. rewrite IH. apply orb_true_r.
Qed.

Lemma rag_excerpt_quotes_summary (summary : value) :
  quotes_summary (format_value summary) (rag_excerpt summary) = true.
Proof.
  apply (is_substring_app_l "**Retrieved Content Summary:** ").
Qed.

(** C7 (as amended). For a trace event with node_name rag_lookup whose
    details contain a sufficiency_verdict, a retrieved_content_summary that
    is present is surfaced as a quoted excerpt, right after the verdict
    line. *)
Theorem rag_lookup_summary_with_verdict (ev d : gmap string value)
    (step description verdict summary : value) (w : world) :
  ev !! "node_name" = Some (JStr "rag_lookup") ->
  ev !! "step" = Some step ->
  ev !! "description" = Some description ->
  ev !! "details" = Some (JObj d) ->
  d !! "sufficiency_verdict" = Some verdict ->
  d !! "retrieved_content_summary" = Some summary ->
  exists verdict_line,
    display_trace_event (JObj ev) w =
    (Ok tt,
     World (session w)
       (page w ++
        [step_heading "rag_lookup" step; description_line description;
         verdict_line; rag_excerpt summary; separator])) /\
    quotes_summary (format_value summary) (rag_excerpt summary) = true.
Proof.
  intros Hn Hs Hd Hdet Hv Hsum.
  destruct (eq_str verdict "Sufficient") eqn:Hverdict.
  - exists (rag_positive verdict). split; [|apply rag_excerpt_quotes_summary].
    run_event. close_event.
  - exists (rag_cautionary verdict). split; [|apply rag_excerpt_quotes_summary].
    run_event. close_event.
Qed.

(** Without a verdict the rag_lookup branch is not taken: details that hold
    a summary fall through to the generic display of the details. *)
Lemma rag_lookup_summary_without_verdict (ev d : gmap string value)
    (step description summary : value) (w : world) :
  ev !! "node_name" = Some (JStr "rag_lookup") ->
  ev !! "step" = Some step ->
  ev !! "description" = Some description ->
  ev !! "details" = Some (JObj d) ->
  d !! "sufficiency_verdict" = None ->
  d !! "retrieved_content_summary" = Some summary ->
  display_trace_event (JObj ev) w =
  (Ok tt,
   World (session w)
     (page w ++
      [step_heading "rag_lookup" step; description_line description;
       Json (JObj d); separator])).
Proof.
  intros Hn Hs Hd Hdet Hv Hsum.
  pose proof (truthy_nonempty_dict _ _ _ Hsum) as Htruthy.
  assert (Hweb : eq_str (JStr "rag_lookup") "web_search" = false) by reflexivity.
  run_event. close_event.
Qed.

(** C8 (as amended). Formatting a trace event never fails because a field
    of details is absent: for every event that carries node_name, step,
    description and details, with node_name a string and details a mapping,
    the display produces its record: the heading, the description, the
    detail lines and the separator. The detail lines are those of
    [detail_lines]: for rag_lookup with a sufficiency_verdict, the verdict
    line, followed by the excerpt when retrieved_content_summary is present
    (its absence only suppresses the excerpt); for web_search with a
    retrieved_content_summary, the web excerpt; in every other case, which
    includes rag_lookup without a verdict and web_search without a summary,
    the details as structured data when they are not empty, and no line
    when they are. *)
Theorem display_trace_event_total (ev d : gmap string value) (name : string)
    (step description : value) (w : world) :
  ev !! "node_name" = Some (JStr name) ->
  ev !! "step" = Some step ->
  ev !! "description" = Some description ->
  ev !! "details" = Some (JObj d) ->
  display_trace_event (JObj ev) w =
  (Ok tt,
   World (session w)
     (page w ++
      [step_heading name step; description_line description]
      ++ detail_lines name d ++ [separator])).
Proof.
  intros Hn Hs Hd Hdet. unfold detail_lines.
  assert (Hrag : eq_str (JStr name) "rag_lookup" = bool_decide (name = "rag_lookup"))
    by reflexivity.
  assert (Hweb : eq_str (JStr name) "web_search" = bool_decide (name = "web_search"))
    by reflexivity.
  assert (Htruthy : truthy (JObj d) = negb (size d =? 0)%nat) by reflexivity.
  destruct (bool_decide (name = "rag_lookup"));
    destruct (bool_decide (name = "web_search"));
    destruct (d !! "sufficiency_verdict") as [verdict|] eqn:Hv;
    destruct (d !! "retrieved_content_summary") as [summary|] eqn:Hsum;
    try destruct (eq_str verdict "Sufficient") eqn:Hverdict;
    destruct (size d =? 0)%nat; cbn [negb] in Htruthy;
    run_event; close_event.
Qed.

(** The cases of [detail_lines], one by one. *)
Lemma detail_lines_rag_verdict (d : gmap string value) (verdict : value) :
  d !! "sufficiency_verdict" = Some verdict ->
  detail_lines "rag_lookup" d =
  (if eq_str verdict "Sufficient" then rag_positive verdict else rag_cautionary verdict)
  :: match d !! "retrieved_content_summary" with
     | Some summary => [rag_excerpt summary]
     | None => []
     end.
Proof. intros Hv. unfold detail_lines. cbn. by rewrite Hv. Qed.

Lemma detail_lines_rag_without_verdict (d : gmap string value) :
  d !! "sufficiency_verdict" = None ->
  detail_lines "rag_lookup" d = if (size d =? 0)%nat then [] else [Json (JObj d)].
Proof. intros Hv. unfold detail_lines. cbn. by rewrite Hv. Qed.

Lemma detail_lines_web_summary (d : gmap string value) (summary : value) :
  d !! "retrieved_content_summary" = Some summary ->
  detail_lines "web_search" d = [web_excerpt summary].
Proof. intros Hsum. unfold detail_lines. cbn. by rewrite Hsum. Qed.

Lemma detail_lines_web_without_summary (d : gmap string value) :
  d !! "retrieved_content_summary" = None ->
  detail_lines "web_search" d = if (size d =? 0)%nat then [] else [Json (JObj d)].
Proof. intros Hsum. unfold detail_lines. cbn. by rewrite Hsum. Qed.

Lemma detail_lines_other (name : string) (d : gmap string value) :
  name <> "rag_lookup" ->
  name <> "web_search" ->
  detail_lines name d = if (size d =? 0)%nat then [] else [Json (JObj d)].
Proof.
  intros Hrag Hweb. unfold detail_lines.
  by rewrite !bool_decide_eq_false_2.
Qed.
End TraceRules.

(** ** Backend answers *)

Section BackendAnswers.
Context `{PyRuntime}.

Lemma raise_for_status_success (r : response) :
  (200 <= status_code r < 300)%Z -> raise_for_status r = Ok tt.
Proof.
  intros Hstatus. unfold raise_for_status.
  destruct (400 <=? status_code r)%Z eqn:Hle; [|reflexivity].
  apply Z.leb_le in Hle. lia.
Qed.

Lemma present_empty_trace : present (JArr []) = (Ok tt, []).
Proof. reflexivity. Qed.

(** A body that is not valid JSON makes [Response.json] raise the decode
    error of [requests], which the [RequestException] clause, placed before
    the [json.JSONDecodeError] clause, takes. *)
Lemma call_backend_chat_api_decode_failure (post : http_post)
    (url sid prompt : string) (b : bool) (r : response) :
  post (url +:+ "/chat/") (ChatPayload sid prompt b) = Ok r ->
  raise_for_status r = Ok tt ->
  body r = None ->
  call_backend_chat_api post url sid prompt b
    = Raise (Exn Requests_JSONDecodeError (decode_error r)).
Proof.
  intros Hpost Hstatus Hbody. unfold call_backend_chat_api.
  rewrite Hpost. cbn. rewrite Hstatus. cbn.
  unfold response_json. rewrite Hbody. reflexivity.
Qed.

Lemma decode_failure_turn (post : http_post) (url sid prompt : string) (b : bool)
    (r : response) :
  post (url +:+ "/chat/") (ChatPayload sid prompt b) = Ok r ->
  raise_for_status r = Ok tt ->
  body r = None ->
  turn_summary post url sid prompt b =
  (Failed,
   [Message "user" (JStr prompt);
    Message "assistant" (JStr ("Error: " +:+ decode_error r))]).
Proof.
  intros Hpost Hstatus Hbody. unfold turn_summary.
  by rewrite (call_backend_chat_api_decode_failure _ _ _ _ _ _ Hpost Hstatus Hbody).
Qed.

(** The clause written for decode failures is reached by an exception that
    is a [json.JSONDecodeError] without being a [RequestException]. *)
Lemma plain_decode_error_rendering (text : string) :
  failure_text (Exn Json_JSONDecodeError text) = "Error: Invalid response from backend.".
Proof. reflexivity. Qed.

Lemma requests_decode_error_rendering (text : string) :
  failure_text (Exn Requests_JSONDecodeError text) = "Error: " +:+ text.
Proof. reflexivity. Qed.

(** A turn appends one user message and one assistant message, except
    when the call succeeded and the trace display raised: then the handler
    adds a second assistant message after the answer. *)
Lemma turn_summary_roles (post : http_post) (url sid prompt : string) (b : bool) :
  role <$> snd (turn_summary post url sid prompt b) =
  match call_backend_chat_api post url sid prompt b with
  | Ok (_, trace_events) =>
      match fst (present trace_events) with
      | Ok _ => ["user"; "assistant"]
      | Raise _ => ["user"; "assistant"; "assistant"]
      end
  | Raise _ => ["user"; "assistant"]
  end.
Proof.
  unfold turn_summary.
  destruct (call_backend_chat_api post url sid prompt b) as [[a t]|e]; [|reflexivity].
  by destruct (fst (present t)).
Qed.

(** C10 (as amended). For a chat response with a success status whose
    decoded body is a JSON object lacking the "response" key or the
    "trace_events" key, the call to the backend does not fail: it returns
    the fallback text in place of a missing response and an empty list in
    place of a missing trace. The turn then completes as a success, with
    the user message and the returned answer appended, whenever displaying
    the returned trace raises nothing, which is always so when
    "trace_events" is the missing key. *)
Theorem missing_keys_fall_back (post : http_post) (url sid prompt : string)
    (b : bool) (r : response) (m : gmap string value) (w : world)
    (ms : list message) :
  session w = SessionState (Some ms) (Some sid) (Some b) ->
  submitted (Some prompt) = Some prompt ->
  post (url +:+ "/chat/") (ChatPayload sid prompt b) = Ok r ->
  (200 <= status_code r < 300)%Z ->
  body r = Some (JObj m) ->
  m !! "response" = None \/ m !! "trace_events" = None ->
  exists agent_response trace_events,
    call_backend_chat_api post url sid prompt b = Ok (agent_response, trace_events) /\
    agent_response = default fallback_response (m !! "response") /\
    trace_events = default (JArr []) (m !! "trace_events") /\
    (fst (present trace_events) = Ok tt ->
     exists pg,
       render_chat_interface post url (Some prompt) w =
       (Ok Completed,
        World (SessionState
                 (Some (ms ++ [Message "user" (JStr prompt);
                               Message "assistant" agent_response]))
                 (Some sid) (Some b)) pg)) /\
    (m !! "trace_events" = None -> fst (present trace_events) = Ok tt).
Proof.
  intros Hs Hsub Hpost Hstatus Hbody _.
  assert (Hcall : call_backend_chat_api post url sid prompt b
                  = Ok (default fallback_response (m !! "response"),
                        default (JArr []) (m !! "trace_events"))).
  { unfold call_backend_chat_api. rewrite Hpost. cbn.
    rewrite (raise_for_status_success _ Hstatus). cbn.
    unfold response_json. rewrite Hbody. reflexivity. }
  do 2 eexists. split; [exact Hcall|]. split; [reflexivity|]. split; [reflexivity|].
  split.
  - intros Hpresent.
    destruct (render_chat_interface_turn post url (Some prompt) prompt w ms sid b Hs Hsub)
      as (pg & Hturn).
    exists pg. rewrite Hturn. unfold turn_summary. rewrite Hcall, Hpresent.
    reflexivity.
  - intros ->. reflexivity.
Qed.
End BackendAnswers.

(** ** Further properties of the session store and of script runs *)

Section MoreRuns.
Context `{PyRuntime}.

Lemma init_session_state_run (uuid : string) (w : world) :
  init_session_state uuid w =
  (Ok tt,
   World (SessionState
            (Some (default [] (messages (session w))
                   ++ match session_id (session w) with
                      | Some _ => []
                      | None => [greeting]
                      end))
            (Some (default uuid (session_id (session w))))
            (Some (default true (web_search_enabled (session w)))))
         (page w)).
Proof.
  destruct w as [[[ms|] [sid|] [b|]] pg]; cbn; rewrite ?app_nil_r; reflexivity.
Qed.

(** X1. Initialization keeps every stored message, in order; it appends the
    greeting, after them, exactly when it generates the session identifier;
    an identifier and a web-search flag already stored are kept, a missing
    flag becomes true. *)
Theorem init_session_state_effect (uuid : string) (w : world) :
  exists added,
    fst (init_session_state uuid w) = Ok tt /\
    messages (session (snd (init_session_state uuid w)))
      = Some (default [] (messages (session w)) ++ added) /\
    (session_id (session w) = None ->
     added = [greeting] /\
     session_id (session (snd (init_session_state uuid w))) = Some uuid) /\
    (forall sid, session_id (session w) = Some sid ->
     added = [] /\
     session_id (session (snd (init_session_state uuid w))) = Some sid) /\
    web_search_enabled (session (snd (init_session_state uuid w)))
      = Some (default true (web_search_enabled (session w))) /\
    page (snd (init_session_state uuid w)) = page w.
Proof.
  rewrite init_session_state_run. simpl.
  destruct (session_id (session w)) as [sid|].
  - exists []. split; [reflexivity|]. split; [reflexivity|].
    split; [discriminate|]. split; [|by split].
    intros sid' [= <-]. by split.
  - exists [greeting]. split; [reflexivity|]. split; [reflexivity|].
    split; [by split|]. split; [|by split]. discriminate.
Qed.

(** What any script run does to the session state, from any world. *)
Lemma main_run (r : script_run) (w : world) :
  exists ms sid b pg,
    session (snd (init_session_state (uuid4 r) w))
      = SessionState (Some ms) (Some sid) (Some b) /\
    main r w =
    (Ok (fst (run_summary r sid (checkbox r b))),
     World (SessionState (Some (ms ++ snd (run_summary r sid (checkbox r b))))
              (Some sid) (Some (checkbox r b))) pg).
Proof.
  rewrite main_after_init.
  destruct (init_session_state_ok (uuid4 r) w) as (_ & Hinit & _).
  destruct (initialized_shape _ Hinit) as (ms & sid & b & Hs).
  destruct (main_initialized r _ ms sid b Hs) as (pg & Hmain).
  exists ms, sid, b, pg. split; [exact Hs|exact Hmain].
Qed.

(** X3. After a script run the stored web-search flag is the checkbox's answer
    to the flag stored before, true standing in for a flag not yet set. *)
Theorem main_sets_web_search_flag (r : script_run) (w : world) :
  web_search_enabled (session (snd (main r w)))
    = Some (checkbox r (default true (web_search_enabled (session w)))).
Proof.
  destruct (main_run r w) as (ms & sid & b & pg & Hs & ->). simpl.
  rewrite init_session_state_run in Hs. simpl in Hs.
  injection Hs as _ _ <-. reflexivity.
Qed.

Lemma main_keeps_messages (r : script_run) (w : world) (ms : list message) :
  messages (session w) = Some ms ->
  exists added, messages (session (snd (main r w))) = Some (ms ++ added).
Proof.
  intros Hms. destruct (main_run r w) as (ms1 & sid & b & pg & Hs & ->). simpl.
  rewrite init_session_state_run in Hs. simpl in Hs. rewrite Hms in Hs. simpl in Hs.
  injection Hs as <- _ _. rewrite <- app_assoc. eauto.
Qed.

(** X4. The message sequence is append-only: after any sequence of script runs
    the messages stored before are still there, in the same order, at the
    front of the sequence. *)
Theorem messages_append_only (rs : list script_run) (w : world) (ms : list message) :
  messages (session w) = Some ms ->
  exists added, messages (session (snd (run_script rs w))) = Some (ms ++ added).
Proof.
  revert w ms. induction rs as [|r rs IH]; intros w ms Hms.
  - exists []. simpl. by rewrite app_nil_r.
  - rewrite run_script_cons_snd.
    destruct (main_keeps_messages r w ms Hms) as (added & Hmain).
    destruct (IH _ _ Hmain) as (added' & ->).
    exists (added ++ added'). by rewrite app_assoc.
Qed.

Lemma turn_summary_shape (post : http_post) (url sid prompt : string) (b : bool) :
  exists rest,
    snd (turn_summary post url sid prompt b) = Message "user" (JStr prompt) :: rest /\
    (length rest = 1 \/ length rest = 2) /\
    Forall (fun m => role m = "assistant") rest.
Proof.
  unfold turn_summary.
  destruct (call_backend_chat_api post url sid prompt b) as [[a t]|e].
  - destruct (fst (present t)); eexists; (split; [reflexivity|]);
      (split; [auto|repeat constructor]).
  - eexists; (split; [reflexivity|]); (split; [auto|repeat constructor]).
Qed.

(** X5. A submitted prompt is stored first, as a user message with the text as
    typed, right after the messages already stored; it is followed by one
    assistant message, or by two (the answer and an error), and by nothing
    else. This holds however the turn ends. *)
Theorem turn_appends_prompt_then_assistant (r : script_run) (w : world)
    (ms : list message) (sid prompt : string) :
  messages (session w) = Some ms ->
  session_id (session w) = Some sid ->
  submitted (chat_input r) = Some prompt ->
  exists rest,
    messages (session (snd (main r w)))
      = Some (ms ++ Message "user" (JStr prompt) :: rest) /\
    (length rest = 1 \/ length rest = 2) /\
    Forall (fun m => role m = "assistant") rest.
Proof.
  intros Hms Hsid Hsub.
  destruct (main_run r w) as (ms1 & sid1 & b & pg & Hs & ->). simpl.
  rewrite init_session_state_run in Hs. simpl in Hs.
  rewrite Hms, Hsid in Hs. simpl in Hs. rewrite app_nil_r in Hs.
  injection Hs as <- <- _.
  unfold run_summary. rewrite Hsub.
  destruct (turn_summary_shape (requests_post r) (load_config (getenv_base_url r))
              sid prompt (checkbox r b)) as (rest & -> & Hlen & Hroles).
  exists rest. auto.
Qed.

(** X6. A run without a submission, or with an empty text submitted, is not a
    turn: whatever the network would answer, the messages and the session
    identifier stay as they were. *)
Theorem no_submission_changes_nothing (r : script_run) (w : world)
    (ms : list message) (sid : string) :
  messages (session w) = Some ms ->
  session_id (session w) = Some sid ->
  chat_input r = None \/ chat_input r = Some "" ->
  fst (main r w) = Ok Idle /\
  messages (session (snd (main r w))) = Some ms /\
  session_id (session (snd (main r w))) = Some sid.
Proof.
  intros Hms Hsid Hci.
  assert (Hsub : submitted (chat_input r) = None) by (by destruct Hci as [-> | ->]).
  destruct (main_run r w) as (ms1 & sid1 & b & pg & Hs & ->). simpl.
  rewrite init_session_state_run in Hs. simpl in Hs.
  rewrite Hms, Hsid in Hs. simpl in Hs. rewrite app_nil_r in Hs.
  injection Hs as <- <- _.
  unfold run_summary. rewrite Hsub. simpl. by rewrite app_nil_r.
Qed.
End MoreRuns.

(** ** Further properties of a turn *)

Section MoreTurns.
Context `{PyRuntime}.

(** X7. When the backend cannot be reached the turn ends failed with exactly
    one new assistant message, the fixed connection-error text, after the
    user message; the messages stored before and the session identifier are
    unchanged. *)
Theorem connection_failure_appends_one_error (r : script_run) (w : world)
    (ms : list message) (sid prompt : string) (b : bool) (e : exn) :
  session w = SessionState (Some ms) (Some sid) (Some b) ->
  submitted (chat_input r) = Some prompt ->
  (forall url p, requests_post r url p = Raise e) ->
  issubclass (exn_cls e) Requests_ConnectionError = true ->
  fst (main r w) = Ok Failed /\
  session (snd (main r w)) =
  SessionState
    (Some (ms ++ [Message "user" (JStr prompt);
                  Message "assistant" (JStr "Error: Could not connect to the backend.")]))
    (Some sid) (Some (checkbox r b)).
Proof.
  intros Hs Hsub Hpost Hconn.
  destruct (main_initialized r w ms sid b Hs) as (pg & ->). simpl.
  unfold run_summary. rewrite Hsub.
  unfold turn_summary, call_backend_chat_api. rewrite Hpost. cbn.
  unfold failure_text. rewrite Hconn. by split.
Qed.

(** X8. A 4xx or 5xx answer is a failed turn whatever its body holds: the one
    assistant message appended is "Error: " followed by the text of the
    HTTP error, and no answer or trace in the body is used. *)
Theorem http_error_status_fails_turn (r : script_run) (w : world)
    (ms : list message) (sid prompt : string) (b : bool) (resp : response) :
  session w = SessionState (Some ms) (Some sid) (Some b) ->
  submitted (chat_input r) = Some prompt ->
  (forall url p, requests_post r url p = Ok resp) ->
  (400 <= status_code resp < 600)%Z ->
  fst (main r w) = Ok Failed /\
  session (snd (main r w)) =
  SessionState
    (Some (ms ++ [Message "user" (JStr prompt);
                  Message "assistant" (JStr ("Error: " +:+ status_error resp))]))
    (Some sid) (Some (checkbox r b)).
Proof.
  intros Hs Hsub Hpost Hstatus.
  destruct (main_initialized r w ms sid b Hs) as (pg & ->). simpl.
  unfold run_summary. rewrite Hsub.
  unfold turn_summary, call_backend_chat_api. rewrite Hpost. cbn.
  unfold raise_for_status.
  replace (400 <=? status_code resp)%Z with true by (symmetry; apply Z.leb_le; lia).
  replace (status_code resp <? 600)%Z with true by (symmetry; apply Z.ltb_lt; lia).
  cbn. by split.
Qed.

(** X9. A success answer whose body is valid JSON but not an object (a list, a
    string, a number, null) is a failed turn: [data.get] does not exist, and
    the assistant message appended is the "Unexpected Error" rendering of
    that [AttributeError]. *)
Theorem non_object_body_fails_turn (r : script_run) (w : world)
    (ms : list message) (sid prompt : string) (b : bool) (resp : response)
    (data : value) :
  session w = SessionState (Some ms) (Some sid) (Some b) ->
  submitted (chat_input r) = Some prompt ->
  (forall url p, requests_post r url p = Ok resp) ->
  (200 <= status_code resp < 300)%Z ->
  body resp = Some data ->
  (forall m, data <> JObj m) ->
  fst (main r w) = Ok Failed /\
  session (snd (main r w)) =
  SessionState
    (Some (ms ++ [Message "user" (JStr prompt);
                  Message "assistant"
                    (JStr ("Unexpected Error: "
                             +:+ fault_text (NoAttribute (type_name data) "get")))]))
    (Some sid) (Some (checkbox r b)).
Proof.
  intros Hs Hsub Hpost Hstatus Hbody Hdata.
  destruct (main_initialized r w ms sid b Hs) as (pg & ->). simpl.
  unfold run_summary. rewrite Hsub.
  unfold turn_summary, call_backend_chat_api. rewrite Hpost. cbn.
  rewrite (raise_for_status_success _ Hstatus). cbn.
  unfold response_json. rewrite Hbody.
  destruct data; try (by split). by destruct (Hdata m).
Qed.



End MoreTurns.

(** ** Further properties of the displays *)

Section MoreDisplays.
Context `{PyRuntime}.

Lemma display_trace_event_record (event : value) (w : world) :
  display_trace_event event w =
  (fst (event_record event), World (session w) (page w ++ snd (event_record event))).
Proof.
  destruct (display_trace_event_draws event) as (o & cs & Hd).
  unfold event_record. rewrite (Hd (World empty_session [])), (Hd w). reflexivity.
Qed.

Lemma for_each_events_ok (events : list value) (w : world) :
  Forall (fun event => fst (event_record event) = Ok tt) events ->
  for_each events display_trace_event w =
  (Ok tt, World (session w) (page w ++ concat ((fun event => snd (event_record event)) <$> events))).
Proof.
  intros Hall. revert w. induction Hall as [|event events Hok _ IH]; intros [s pg].
  - simpl. unfold skip. simpl. by rewrite app_nil_r.
  - simpl. rewrite bind_run, display_trace_event_record, Hok, IH. simpl.
    by rewrite <- app_assoc.
Qed.

Lemma for_each_events_failure (good rest : list value) (bad : value) (e : exn) (w : world) :
  Forall (fun event => fst (event_record event) = Ok tt) good ->
  fst (event_record bad) = Raise e ->
  for_each (good ++ bad :: rest) display_trace_event w =
  (Raise e,
   World (session w)
     (page w ++ concat ((fun event => snd (event_record event)) <$> good)
      ++ snd (event_record bad))).
Proof.
  intros Hall Hbad. revert w. induction Hall as [|event events Hok _ IH]; intros [s pg].
  - simpl. rewrite bind_run, display_trace_event_record, Hbad. reflexivity.
  - simpl. rewrite bind_run, display_trace_event_record, Hok, IH. simpl.
    by rewrite <- !app_assoc.
Qed.

(** X11. A trace whose events all display without error is shown under one
    expander, event after event in the order received, each with its own
    record; an empty trace draws nothing, not even the expander. *)
Theorem trace_displayed_in_order (events : list value) (w : world) :
  Forall (fun event => fst (event_record event) = Ok tt) events ->
  display_trace_events (JArr events) w =
  (Ok tt,
   World (session w)
     (page w ++
      match events with
      | [] => []
      | _ :: _ =>
          Expander "🔬 Agent Workflow Trace"
          :: concat ((fun event => snd (event_record event)) <$> events)
      end)).
Proof.
  intros Hall. destruct events as [|event events].
  - destruct w as [s pg]. unfold display_trace_events, skip. simpl.
    by rewrite app_nil_r.
  - unfold display_trace_events. cbn [truthy length Nat.eqb negb].
    erewrite bind_ok by reflexivity. erewrite bind_ok by reflexivity.
    rewrite (for_each_events_ok _ _ Hall). simpl. by rewrite <- app_assoc.
Qed.

(** X12. The display stops at the first event that raises: the events before it
    are shown in full, the failing event up to the call that raised, the
    events after it not at all, and the exception leaves the display. *)
Theorem trace_display_stops_at_first_failure (good rest : list value) (bad : value)
    (e : exn) (w : world) :
  Forall (fun event => fst (event_record event) = Ok tt) good ->
  fst (event_record bad) = Raise e ->
  display_trace_events (JArr (good ++ bad :: rest)) w =
  (Raise e,
   World (session w)
     (page w ++
      Expander "🔬 Agent Workflow Trace"
      :: concat ((fun event => snd (event_record event)) <$> good)
      ++ snd (event_record bad))).
Proof.
  intros Hall Hbad. unfold display_trace_events.
  assert (Htruthy : truthy (JArr (good ++ bad :: rest)) = true).
  { simpl. rewrite length_app. simpl. by rewrite Nat.add_succ_r. }
  rewrite Htruthy.
  erewrite bind_ok by reflexivity. erewrite bind_ok by reflexivity.
  rewrite (for_each_events_failure _ _ _ _ _ Hall Hbad). simpl.
  by rewrite <- app_assoc.
Qed.

Ltac eval_event :=
  unfold display_trace_event, mbind, M_bind, outcome_bind, lift, emit, skip,
    subscript, contains, and_then, icon_for;
  repeat (cbn -[eq_str truthy format_value];
          rewrite ?eq_str_refl;
          repeat match goal with
                 | Hk : ?m !! ?k = _ |- context [?m !! ?k] => rewrite Hk
                 | Hb : ?b = _ |- context [if ?b then _ else _] => rewrite Hb
                 end).

Ltac finish_event :=
  cbn -[format_value]; rewrite <- ?app_assoc; reflexivity.

(** X13. A web_search event whose details hold a retrieved_content_summary shows
    it as a quoted excerpt under the web-search label, whatever else the
    details hold. *)
Theorem web_search_summary_display (ev d : gmap string value)
    (step description summary : value) (w : world) :
  ev !! "node_name" = Some (JStr "web_search") ->
  ev !! "step" = Some step ->
  ev !! "description" = Some description ->
  ev !! "details" = Some (JObj d) ->
  d !! "retrieved_content_summary" = Some summary ->
  display_trace_event (JObj ev) w =
  (Ok tt,
   World (session w)
     (page w ++
      [Subheader ("🌐 Step " +:+ format_value step +:+ ": web_search");
       Write ("**Description:** " +:+ format_value description);
       Markdown (JStr ("**Web Search Content Summary:** `" +:+ format_value summary +:+ "`"));
       Markdown (JStr "---")])).
Proof.
  intros Hn Hs Hd Hdet Hsum.
  assert (Hrag : eq_str (JStr "web_search") "rag_lookup" = false) by reflexivity.
  eval_event. finish_event.
Qed.

Lemma unknown_node_facts (name : string) :
  name ∉ known_nodes ->
  icon_map !! name = None /\
  eq_str (JStr name) "rag_lookup" = false /\
  eq_str (JStr name) "web_search" = false.
Proof.
  unfold known_nodes. rewrite !not_elem_of_cons. intros (H1 & H2 & H3 & H4 & H5 & _).
  split; [|split].
  - unfold icon_map. rewrite !lookup_insert_ne by done. apply lookup_empty.
  - apply eq_str_false. congruence.
  - apply eq_str_false. congruence.
Qed.

(** X14. An event whose node_name is none of the five known names is displayed
    without error under the gear icon, with its details shown verbatim as
    structured data when they are not empty and with no details line when
    they are. *)
Theorem unknown_node_display (ev d : gmap string value) (name : string)
    (step description : value) (w : world) :
  name ∉ known_nodes ->
  ev !! "node_name" = Some (JStr name) ->
  ev !! "step" = Some step ->
  ev !! "description" = Some description ->
  ev !! "details" = Some (JObj d) ->
  display_trace_event (JObj ev) w =
  (Ok tt,
   World (session w)
     (page w ++
      [Subheader ("⚙️ Step " +:+ format_value step +:+ ": " +:+ name);
       Write ("**Description:** " +:+ format_value description)]
      ++ (if (size d =? 0)%nat then [] else [Json (JObj d)])
      ++ [Markdown (JStr "---")])).
Proof.
  intros Hname Hn Hs Hd Hdet.
  destruct (unknown_node_facts name Hname) as (Hicon & Hrag & Hweb).
  assert (Htruthy : truthy (JObj d) = negb (size d =? 0)%nat) by reflexivity.
  destruct (size d =? 0)%nat; cbn [negb] in Htruthy; eval_event; finish_event.
Qed.

End MoreDisplays.

(** ** Properties of the upload section *)

Section UploadProperties.
Context `{PyRuntime}.

Lemma raise_for_status_error (r : response) :
  (400 <= status_code r < 600)%Z ->
  raise_for_status r = Raise (Exn Requests_HTTPError (status_error r)).
Proof.
  intros Hstatus. unfold raise_for_status.
  replace (400 <=? status_code r)%Z with true by (symmetry; apply Z.leb_le; lia).
  replace (status_code r <? 600)%Z with true by (symmetry; apply Z.ltb_lt; lia).
  reflexivity.
Qed.

Lemma upload_handlers_total (e : exn) :
  exists handler, select_handler upload_handlers e = Some handler.
Proof. destruct e as [c text]. destruct c; eexists; reflexivity. Qed.

(** X16. The upload section depends on the network only through the answer
    to one request: the POST to the upload endpoint under the base URL with
    the file of the uploader, and only when the button was clicked with a
    file chosen. Two networks that answer this request alike give the same
    section, however they differ elsewhere; without a click or without a
    file the network plays no part. (How often the request is sent is not
    part of the statement.) *)
Theorem upload_depends_on_one_answer (post1 post2 : upload_post) (url : string)
    (uploaded : option uploaded_file) (clicked : bool) :
  (forall file,
     clicked = true -> uploaded = Some file ->
     post1 (url +:+ "/upload-document/") file = post2 (url +:+ "/upload-document/") file) ->
  document_upload_section post1 url uploaded clicked
    = document_upload_section post2 url uploaded clicked.
Proof.
  intros Hpost. unfold document_upload_section, upload_request.
  destruct clicked; [|reflexivity].
  destruct uploaded as [file|]; [|reflexivity].
  by rewrite (Hpost file eq_refl eq_refl).
Qed.

(** X17. The upload section never lets an exception out: whatever the widgets
    hold and the network does, it returns, and it ends with the separator. *)
Theorem upload_section_never_raises (post : upload_post) (url : string)
    (uploaded : option uploaded_file) (clicked : bool) :
  exists calls,
    document_upload_section post url uploaded clicked
      = (Ok tt, calls ++ [Drawn (Markdown (JStr "---"))]).
Proof.
  unfold document_upload_section. cbv zeta.
  destruct clicked; [|eexists; reflexivity].
  destruct uploaded as [file|].
  - destruct (upload_request post url file) as [err|message].
    + destruct (upload_handlers_total (error err)) as (handler & ->).
      rewrite app_assoc. eexists. reflexivity.
    + rewrite app_assoc. eexists. reflexivity.
  - rewrite app_assoc. eexists. reflexivity.
Qed.

(** X18. When the upload endpoint answers with a 4xx or 5xx status, the error
    shown names the HTTP error and then says "No response from backend.":
    the reply is falsy because of its status, so the text the backend sent
    is never shown. *)
Theorem upload_http_error_hides_backend_text (post : upload_post) (url : string)
    (file : uploaded_file) (r : http_reply) :
  post (url +:+ "/upload-document/") file = inr r ->
  (400 <= status_code (reply r) < 600)%Z ->
  document_upload_section post url (Some file) true =
  (Ok tt,
   [Drawn (Header "Upload Document to Knowledge Base");
    Drawn (Expander "Upload New Document (PDF Only)");
    FileUploader "Choose a PDF file" "pdf" "pdf_uploader";
    Button "Upload PDF" "upload_pdf_button";
    Drawn (Spinner ("Uploading " +:+ file_name file +:+ "..."));
    Drawn (Error ("Error uploading document: " +:+ status_error (reply r)
                    +:+ ". Response: No response from backend."));
    Drawn (Markdown (JStr "---"))]).
Proof.
  intros Hpost Hstatus.
  assert (Hok : response_ok (reply r) = false).
  { unfold response_ok. by rewrite (raise_for_status_error _ Hstatus). }
  unfold document_upload_section, upload_request.
  rewrite Hpost, (raise_for_status_error _ Hstatus).
  assert (Hc1 : issubclass Requests_HTTPError Requests_ConnectionError = false)
    by reflexivity.
  assert (Hc2 : issubclass Requests_HTTPError RequestException = true) by reflexivity.
  unfold select_handler. cbn [List.find upload_handlers fst error exn_cls].
  rewrite Hc1, Hc2. cbn -[response_ok]. rewrite Hok. reflexivity.
Qed.

(** X19. When the upload endpoint cannot be reached, the section shows the fixed
    connection-error text and nothing of the exception. *)
Theorem upload_connection_failure (post : upload_post) (url : string)
    (file : uploaded_file) (err : request_error) :
  post (url +:+ "/upload-document/") file = inl err ->
  issubclass (exn_cls (error err)) Requests_ConnectionError = true ->
  document_upload_section post url (Some file) true =
  (Ok tt,
   [Drawn (Header "Upload Document to Knowledge Base");
    Drawn (Expander "Upload New Document (PDF Only)");
    FileUploader "Choose a PDF file" "pdf" "pdf_uploader";
    Button "Upload PDF" "upload_pdf_button";
    Drawn (Spinner ("Uploading " +:+ file_name file +:+ "..."));
    Drawn (Error "Could not connect to the FastAPI backend. Please ensure it's running.");
    Drawn (Markdown (JStr "---"))]).
Proof.
  intros Hpost Hconn.
  unfold document_upload_section, upload_request. rewrite Hpost.
  unfold select_handler. cbn [List.find upload_handlers fst]. rewrite Hconn.
  reflexivity.
Qed.

(** X20. When the upload endpoint answers with a success status and a JSON
    object, the section reports success with the filename and the chunk
    count the backend returned, not with the name of the file sent; a key
    missing from the answer is printed as [None]. *)
Theorem upload_success_message (post : upload_post) (url : string)
    (file : uploaded_file) (r : http_reply) (m : gmap string value) :
  post (url +:+ "/upload-document/") file = inr r ->
  (200 <= status_code (reply r) < 300)%Z ->
  body (reply r) = Some (JObj m) ->
  document_upload_section post url (Some file) true =
  (Ok tt,
   [Drawn (Header "Upload Document to Knowledge Base");
    Drawn (Expander "Upload New Document (PDF Only)");
    FileUploader "Choose a PDF file" "pdf" "pdf_uploader";
    Button "Upload PDF" "upload_pdf_button";
    Drawn (Spinner ("Uploading " +:+ file_name file +:+ "..."));
    Drawn (Success ("PDF '" +:+ format_value (default JNull (m !! "filename"))
                      +:+ "' uploaded successfully! Processed "
                      +:+ format_value (default JNull (m !! "processed_chunks"))
                      +:+ " pages."));
    Drawn (Markdown (JStr "---"))]).
Proof.
  intros Hpost Hstatus Hbody.
  unfold document_upload_section, upload_request.
  rewrite Hpost, (raise_for_status_success _ Hstatus).
  unfold response_json. rewrite Hbody. reflexivity.
Qed.
End UploadProperties.

(** * Worked runs *)

#[local] Existing Instance sample_runtime.

(** *** Single turns *)

Example good_turn_messages :
  fst (main (ask question (answering good_response)) blank) = Ok Completed /\
  session (snd (main (ask question (answering good_response)) blank)) =
  SessionState
    (Some [greeting; Message "user" (JStr question); Message "assistant" (JStr "Paris.")])
    (Some "4f5c") (Some true).
Proof. split; vm_compute; reflexivity. Qed.

Example good_turn_trace :
  present (JArr [JObj router_event; JObj rag_event]) =
  (Ok tt,
   [Expander "🔬 Agent Workflow Trace";
    Subheader "➡️ Step 1: router";
    Write "**Description:** Routing the query";
    Json (JObj (<["decision" := JStr "rag"]> ∅));
    Markdown (JStr "---");
    Subheader "📚 Step 2: rag_lookup";
    Write "**Description:** Looking up the knowledge base";
    Success "**RAG Verdict:** Sufficient - Relevant info found in Knowledge Base.";
    Markdown (JStr "**Retrieved Content Summary:** `Paris is the capital of France`");
    Markdown (JStr "---")]).
Proof. vm_compute. reflexivity. Qed.

Example connection_failure_turn :
  fst (main (ask question unreachable) blank) = Ok Failed /\
  messages (session (snd (main (ask question unreachable) blank))) =
  Some [greeting; Message "user" (JStr question);
        Message "assistant" (JStr "Error: Could not connect to the backend.")].
Proof. split; vm_compute; reflexivity. Qed.

Example protocol_failure_turn :
  messages (session (snd (main (ask question (answering server_error_response)) blank))) =
  Some [greeting; Message "user" (JStr question);
        Message "assistant"
          (JStr "Error: 500 Server Error: Internal Server Error for url: http://localhost:8000/chat/")].
Proof. vm_compute. reflexivity. Qed.

(** *** The session store over several runs *)



Example two_turns_and_a_rerun_messages :
  messages (session (snd (run_script two_turns_and_a_rerun (fresh_world "4f5c" [])))) =
  Some [greeting;
        Message "user" (JStr question);
        Message "assistant" (JStr "Paris.");
        Message "user" (JStr "And of Italy?");
        Message "assistant" fallback_response].
Proof. vm_compute. reflexivity. Qed.

Example two_successful_turns_counted :
  successful_turns (fst (run_script two_turns_and_a_rerun (fresh_world "4f5c" []))) = 2.
Proof. vm_compute. reflexivity. Qed.

Lemma session_id_never_changes_witness :
  session_id (session (fresh_world "4f5c" [])) = Some "4f5c" /\
  session_id (session (snd (run_script mixed_runs (fresh_world "4f5c" [])))) = Some "4f5c".
Proof.
  split; [reflexivity|].
  apply (session_id_never_changes mixed_runs (fresh_world "4f5c" []) "4f5c").
  reflexivity.
Defined.

Example mixed_runs_outcomes :
  fst (run_script mixed_runs (fresh_world "4f5c" [])) =
  [Ok Completed; Ok Failed; Ok Idle; Ok Failed; Ok Failed].
Proof. vm_compute. reflexivity. Qed.

(** *** The trace display *)

Lemma rag_lookup_verdict_display_witness :
  rag_event !! "node_name" = Some (JStr "rag_lookup") /\
  rag_event !! "step" = Some (JInt 2) /\
  rag_event !! "description" = Some (JStr "Looking up the knowledge base") /\
  rag_event !! "details" = Some (JObj rag_details) /\
  rag_details !! "sufficiency_verdict" = Some (JStr "Sufficient") /\
  exists excerpt,
    (JStr "Sufficient" = JStr "Sufficient" ->
     display_trace_event (JObj rag_event) blank =
     (Ok tt,
      World (session blank)
        (page blank ++
         [step_heading "rag_lookup" (JInt 2);
          description_line (JStr "Looking up the knowledge base");
          Success "**RAG Verdict:** Sufficient - Relevant info found in Knowledge Base."]
         ++ excerpt ++ [separator]))) /\
    (JStr "Sufficient" <> JStr "Sufficient" ->
     display_trace_event (JObj rag_event) blank =
     (Ok tt,
      World (session blank)
        (page blank ++
         [step_heading "rag_lookup" (JInt 2);
          description_line (JStr "Looking up the knowledge base");
          Warning ("**RAG Verdict:** " +:+ format_value (JStr "Sufficient") +:+
                   " - No sufficient info in Knowledge Base. Diverting to Web Search.")]
         ++ excerpt ++ [separator]))).
Proof.
  do 5 (split; [reflexivity|]).
  apply (rag_lookup_verdict_display rag_event rag_details (JInt 2)
           (JStr "Looking up the knowledge base") (JStr "Sufficient") blank);
    reflexivity.
Defined.

Lemma rag_lookup_summary_with_verdict_witness :
  rag_event !! "node_name" = Some (JStr "rag_lookup") /\
  rag_event !! "step" = Some (JInt 2) /\
  rag_event !! "description" = Some (JStr "Looking up the knowledge base") /\
  rag_event !! "details" = Some (JObj rag_details) /\
  rag_details !! "sufficiency_verdict" = Some (JStr "Sufficient") /\
  rag_details !! "retrieved_content_summary" = Some (JStr "Paris is the capital of France") /\
  exists verdict_line,
    display_trace_event (JObj rag_event) blank =
    (Ok tt,
     World (session blank)
       (page blank ++
        [step_heading "rag_lookup" (JInt 2);
         description_line (JStr "Looking up the knowledge base");
         verdict_line; rag_excerpt (JStr "Paris is the capital of France"); separator])) /\
    quotes_summary (format_value (JStr "Paris is the capital of France"))
      (rag_excerpt (JStr "Paris is the capital of France")) = true.
Proof.
  do 6 (split; [reflexivity|]).
  apply (rag_lookup_summary_with_verdict rag_event rag_details (JInt 2)
           (JStr "Looking up the knowledge base") (JStr "Sufficient")
           (JStr "Paris is the capital of France") blank);
    reflexivity.
Defined.

(** C7, as stated, fails: a rag_lookup event whose details hold a
    retrieved_content_summary and no sufficiency_verdict is displayed with
    its details as structured data; no call quotes the summary. *)
Lemma rag_summary_without_verdict_not_quoted :
  rag_event_without_verdict !! "node_name" = Some (JStr "rag_lookup") /\
  contains "retrieved_content_summary" (JObj summary_only_details) = Ok true /\
  display_trace_event (JObj rag_event_without_verdict) blank =
  (Ok tt,
   World empty_session
     [Subheader "📚 Step 2: rag_lookup";
      Write "**Description:** Looking up the knowledge base";
      Json (JObj summary_only_details);
      Markdown (JStr "---")]) /\
  existsb (quotes_summary "abc")
    (page (snd (display_trace_event (JObj rag_event_without_verdict) blank))) = false.
Proof. repeat split; vm_compute; reflexivity. Qed.

Lemma display_trace_event_total_witness :
  rag_event_without_verdict !! "node_name" = Some (JStr "rag_lookup") /\
  rag_event_without_verdict !! "step" = Some (JInt 2) /\
  rag_event_without_verdict !! "description" = Some (JStr "Looking up the knowledge base") /\
  rag_event_without_verdict !! "details" = Some (JObj summary_only_details) /\
  display_trace_event (JObj rag_event_without_verdict) blank =
  (Ok tt,
   World (session blank)
     (page blank ++
      [step_heading "rag_lookup" (JInt 2);
       description_line (JStr "Looking up the knowledge base")]
      ++ detail_lines "rag_lookup" summary_only_details ++ [separator])).
Proof.
  do 4 (split; [reflexivity|]).
  apply (display_trace_event_total rag_event_without_verdict summary_only_details
           "rag_lookup" (JInt 2) (JStr "Looking up the knowledge base") blank);
    reflexivity.
Defined.

(** What the detail lines are on the sample events: the verdict and the
    excerpt; without the verdict, no excerpt and the details instead; the
    web excerpt; the details of a node with no rule of its own. *)
Example detail_lines_samples :
  detail_lines "rag_lookup" rag_details =
    [Success "**RAG Verdict:** Sufficient - Relevant info found in Knowledge Base.";
     Markdown (JStr "**Retrieved Content Summary:** `Paris is the capital of France`")] /\
  detail_lines "rag_lookup" summary_only_details = [Json (JObj summary_only_details)] /\
  detail_lines "web_search" web_details =
    [Markdown (JStr "**Web Search Content Summary:** `Rome is the capital of Italy`")] /\
  detail_lines "web_search" (<["source_count" := JInt 3]> ∅) =
    [Json (JObj (<["source_count" := JInt 3]> ∅))] /\
  detail_lines "router" ∅ = [].
Proof. repeat split; vm_compute; reflexivity. Qed.

(** C8, as stated, fails: an event without the details field raises
    [KeyError] after its heading and description have been drawn, and the
    display of the whole trace fails with it. *)
Lemma event_without_details_raises :
  event_without_details !! "details" = None /\
  display_trace_event (JObj event_without_details) blank =
  (Raise (Exn KeyError "'details'"),
   World empty_session
     [Subheader "➡️ Step 1: router"; Write "**Description:** Routing the query"]) /\
  fst (present (JArr [JObj event_without_details])) = Raise (Exn KeyError "'details'").
Proof. repeat split; vm_compute; reflexivity. Qed.

(** *** Turns *)

(** C1. The backend answers with a success status, an answer and a trace
    whose event lacks the details field. The answer is appended as an
    assistant message, the trace display then raises inside the same [try],
    and the [except Exception] clause appends a second assistant message:
    the turn ends failed with one user message and two assistant messages
    appended. *)
Theorem failing_trace_appends_two_assistant_messages :
  fst (main (ask question (answering bad_trace_response)) blank) = Ok Failed /\
  messages (session (snd (main (ask question (answering bad_trace_response)) blank))) =
  Some [greeting;
        Message "user" (JStr question);
        Message "assistant" (JStr "Paris.");
        Message "assistant" (JStr "Unexpected Error: 'details'")].
Proof. split; vm_compute; reflexivity. Qed.

(** C5. The backend answers with a success status and a body that is not
    valid JSON. The decode error [Response.json] raises is a
    [RequestException], so the clause for request errors handles it: the
    appended assistant message is "Error: " followed by the decoder's text,
    the rendering of a protocol failure, and not "Error: Invalid response
    from backend.". *)
Theorem decode_failure_rendered_as_request_error :
  raise_for_status not_json_response = Ok tt /\
  body not_json_response = None /\
  fst (main (ask question (answering not_json_response)) blank) = Ok Failed /\
  messages (session (snd (main (ask question (answering not_json_response)) blank))) =
  Some [greeting;
        Message "user" (JStr question);
        Message "assistant" (JStr "Error: Expecting value: line 1 column 1 (char 0)")].
Proof. repeat split; vm_compute; reflexivity. Qed.

Lemma missing_keys_fall_back_witness :
  session (fresh_world "4f5c" []) = SessionState (Some [greeting]) (Some "4f5c") (Some true) /\
  submitted (Some question) = Some question /\
  answering empty_object_response ("http://localhost:8000" +:+ "/chat/")
    (ChatPayload "4f5c" question true) = Ok empty_object_response /\
  (200 <= status_code empty_object_response < 300)%Z /\
  body empty_object_response = Some (JObj ∅) /\
  ((∅ : gmap string value) !! "response" = None \/
   (∅ : gmap string value) !! "trace_events" = None) /\
  exists agent_response trace_events,
    call_backend_chat_api (answering empty_object_response) "http://localhost:8000"
      "4f5c" question true = Ok (agent_response, trace_events) /\
    agent_response = default fallback_response ((∅ : gmap string value) !! "response") /\
    trace_events = default (JArr []) ((∅ : gmap string value) !! "trace_events") /\
    (fst (present trace_events) = Ok tt ->
     exists pg,
       render_chat_interface (answering empty_object_response) "http://localhost:8000"
         (Some question) (fresh_world "4f5c" []) =
       (Ok Completed,
        World (SessionState
                 (Some ([greeting] ++ [Message "user" (JStr question);
                                       Message "assistant" agent_response]))
                 (Some "4f5c") (Some true)) pg)) /\
    ((∅ : gmap string value) !! "trace_events" = None ->
     fst (present trace_events) = Ok tt).
Proof.
  split; [reflexivity|]. split; [reflexivity|]. split; [reflexivity|].
  split; [simpl; lia|]. split; [reflexivity|]. split; [left; reflexivity|].
  apply (missing_keys_fall_back (answering empty_object_response)
           "http://localhost:8000" "4f5c" question true empty_object_response ∅
           (fresh_world "4f5c" []) [greeting]).
  - reflexivity.
  - reflexivity.
  - reflexivity.
  - simpl. lia.
  - reflexivity.
  - left. reflexivity.
Defined.

(** C10, as stated, fails: the body has a success status and lacks the
    "response" key, the call returns the fallback text and the trace, and the
    turn still ends failed, because the returned trace holds an event
    without details. *)
Lemma missing_response_with_failing_trace_fails :
  (200 <= status_code no_answer_bad_trace_response < 300)%Z /\
  no_answer_bad_trace_body !! "response" = None /\
  call_backend_chat_api (answering no_answer_bad_trace_response) "http://localhost:8000"
    "4f5c" question true
    = Ok (fallback_response, JArr [JObj event_without_details]) /\
  fst (main (ask question (answering no_answer_bad_trace_response)) blank) = Ok Failed /\
  messages (session (snd (main (ask question (answering no_answer_bad_trace_response)) blank))) =
  Some [greeting;
        Message "user" (JStr question);
        Message "assistant" fallback_response;
        Message "assistant" (JStr "Unexpected Error: 'details'")].
Proof.
  split; [simpl; lia|]. repeat split; vm_compute; reflexivity.
Qed.

(** *** Further runs *)

Lemma messages_append_only_witness :
  messages (session stored_session) = Some [greeting] /\
  exists added,
    messages (session (snd (run_script mixed_runs stored_session)))
      = Some ([greeting] ++ added).
Proof.
  split; [reflexivity|].
  apply (messages_append_only mixed_runs stored_session [greeting]). reflexivity.
Defined.

Lemma turn_appends_prompt_then_assistant_witness :
  messages (session stored_session) = Some [greeting] /\
  session_id (session stored_session) = Some "4f5c" /\
  submitted (chat_input (ask question (answering bad_trace_response))) = Some question /\
  exists rest,
    messages (session (snd (main (ask question (answering bad_trace_response))
                              stored_session)))
      = Some ([greeting] ++ Message "user" (JStr question) :: rest) /\
    (length rest = 1 \/ length rest = 2) /\
    Forall (fun m => role m = "assistant") rest.
Proof.
  do 3 (split; [reflexivity|]).
  apply (turn_appends_prompt_then_assistant (ask question (answering bad_trace_response))
           stored_session [greeting] "4f5c" question); reflexivity.
Defined.

Lemma no_submission_changes_nothing_witness :
  messages (session stored_session) = Some [greeting] /\
  session_id (session stored_session) = Some "4f5c" /\
  (chat_input (ask "" (answering good_response)) = None \/
   chat_input (ask "" (answering good_response)) = Some "") /\
  fst (main (ask "" (answering good_response)) stored_session) = Ok Idle /\
  messages (session (snd (main (ask "" (answering good_response)) stored_session)))
    = Some [greeting] /\
  session_id (session (snd (main (ask "" (answering good_response)) stored_session)))
    = Some "4f5c".
Proof.
  split; [reflexivity|]. split; [reflexivity|]. split; [right; reflexivity|].
  apply (no_submission_changes_nothing (ask "" (answering good_response))
           stored_session [greeting] "4f5c");
    [reflexivity | reflexivity | right; reflexivity].
Defined.

Lemma connection_failure_appends_one_error_witness :
  session stored_session = SessionState (Some [greeting]) (Some "4f5c") (Some true) /\
  submitted (chat_input (ask question unreachable)) = Some question /\
  (forall url p,
     requests_post (ask question unreachable) url p
     = Raise (Exn Requests_ConnectionError "Connection refused")) /\
  issubclass (exn_cls (Exn Requests_ConnectionError "Connection refused"))
    Requests_ConnectionError = true /\
  fst (main (ask question unreachable) stored_session) = Ok Failed /\
  session (snd (main (ask question unreachable) stored_session)) =
  SessionState
    (Some ([greeting] ++
           [Message "user" (JStr question);
            Message "assistant" (JStr "Error: Could not connect to the backend.")]))
    (Some "4f5c") (Some (checkbox (ask question unreachable) true)).
Proof.
  split; [reflexivity|]. split; [reflexivity|]. split; [intros; reflexivity|].
  split; [reflexivity|].
  apply (connection_failure_appends_one_error (ask question unreachable) stored_session
           [greeting] "4f5c" question true
           (Exn Requests_ConnectionError "Connection refused"));
    [reflexivity | reflexivity | intros; reflexivity | reflexivity].
Defined.

Lemma http_error_status_fails_turn_witness :
  session stored_session = SessionState (Some [greeting]) (Some "4f5c") (Some true) /\
  submitted (chat_input (ask question (answering server_error_response))) = Some question /\
  (forall url p,
     requests_post (ask question (answering server_error_response)) url p
     = Ok server_error_response) /\
  (400 <= status_code server_error_response < 600)%Z /\
  fst (main (ask question (answering server_error_response)) stored_session) = Ok Failed /\
  session (snd (main (ask question (answering server_error_response)) stored_session)) =
  SessionState
    (Some ([greeting] ++
           [Message "user" (JStr question);
            Message "assistant"
              (JStr ("Error: " +:+ status_error server_error_response))]))
    (Some "4f5c")
    (Some (checkbox (ask question (answering server_error_response)) true)).
Proof.
  split; [reflexivity|]. split; [reflexivity|]. split; [intros; reflexivity|].
  split; [simpl; lia|].
  apply (http_error_status_fails_turn (ask question (answering server_error_response))
           stored_session [greeting] "4f5c" question true server_error_response);
    [reflexivity | reflexivity | intros; reflexivity | simpl; lia].
Defined.

Lemma non_object_body_fails_turn_witness :
  session stored_session = SessionState (Some [greeting]) (Some "4f5c") (Some true) /\
  submitted (chat_input (ask question (answering list_body_response))) = Some question /\
  (forall url p,
     requests_post (ask question (answering list_body_response)) url p
     = Ok list_body_response) /\
  (200 <= status_code list_body_response < 300)%Z /\
  body list_body_response = Some (JArr []) /\
  (forall m, JArr [] <> JObj m) /\
  fst (main (ask question (answering list_body_response)) stored_session) = Ok Failed /\
  session (snd (main (ask question (answering list_body_response)) stored_session)) =
  SessionState
    (Some ([greeting] ++
           [Message "user" (JStr question);
            Message "assistant"
              (JStr ("Unexpected Error: "
                       +:+ fault_text (NoAttribute (type_name (JArr [])) "get")))]))
    (Some "4f5c") (Some (checkbox (ask question (answering list_body_response)) true)).
Proof.
  split; [reflexivity|]. split; [reflexivity|]. split; [intros; reflexivity|].
  split; [simpl; lia|]. split; [reflexivity|]. split; [discriminate|].
  apply (non_object_body_fails_turn (ask question (answering list_body_response))
           stored_session [greeting] "4f5c" question true list_body_response (JArr []));
    [reflexivity | reflexivity | intros; reflexivity | simpl; lia | reflexivity
    | discriminate].
Defined.


(** *** Further displays *)

Lemma trace_displayed_in_order_witness :
  Forall (fun event => fst (event_record event) = Ok tt)
    [JObj router_event; JObj rag_event; JObj web_event] /\
  display_trace_events (JArr [JObj router_event; JObj rag_event; JObj web_event]) blank =
  (Ok tt,
   World (session blank)
     (page blank ++
      Expander "🔬 Agent Workflow Trace"
      :: concat ((fun event => snd (event_record event))
                   <$> [JObj router_event; JObj rag_event; JObj web_event]))).
Proof.
  split; [repeat constructor|].
  apply (trace_displayed_in_order [JObj router_event; JObj rag_event; JObj web_event] blank).
  repeat constructor.
Defined.

Lemma trace_display_stops_at_first_failure_witness :
  Forall (fun event => fst (event_record event) = Ok tt) [JObj router_event] /\
  fst (event_record (JObj event_without_details)) = Raise (Exn KeyError "'details'") /\
  display_trace_events
    (JArr ([JObj router_event] ++ JObj event_without_details :: [JObj rag_event])) blank =
  (Raise (Exn KeyError "'details'"),
   World (session blank)
     (page blank ++
      Expander "🔬 Agent Workflow Trace"
      :: concat ((fun event => snd (event_record event)) <$> [JObj router_event])
      ++ snd (event_record (JObj event_without_details)))).
Proof.
  split; [repeat constructor|]. split; [reflexivity|].
  apply (trace_display_stops_at_first_failure [JObj router_event] [JObj rag_event]
           (JObj event_without_details) (Exn KeyError "'details'") blank);
    [repeat constructor | reflexivity].
Defined.

Example failing_event_hides_later_events :
  page (snd (display_trace_events
               (JArr [JObj router_event; JObj event_without_details; JObj rag_event])
               blank)) =
  [Expander "🔬 Agent Workflow Trace";
   Subheader "➡️ Step 1: router";
   Write "**Description:** Routing the query";
   Json (JObj (<["decision" := JStr "rag"]> ∅));
   Markdown (JStr "---");
   Subheader "➡️ Step 1: router";
   Write "**Description:** Routing the query"].
Proof. vm_compute. reflexivity. Qed.

Lemma web_search_summary_display_witness :
  web_event !! "node_name" = Some (JStr "web_search") /\
  web_event !! "step" = Some (JInt 3) /\
  web_event !! "description" = Some (JStr "Searching the web") /\
  web_event !! "details" = Some (JObj web_details) /\
  web_details !! "retrieved_content_summary" = Some (JStr "Rome is the capital of Italy") /\
  display_trace_event (JObj web_event) blank =
  (Ok tt,
   World (session blank)
     (page blank ++
      [Subheader ("🌐 Step " +:+ format_value (JInt 3) +:+ ": web_search");
       Write ("**Description:** " +:+ format_value (JStr "Searching the web"));
       Markdown (JStr ("**Web Search Content Summary:** `"
                         +:+ format_value (JStr "Rome is the capital of Italy") +:+ "`"));
       Markdown (JStr "---")])).
Proof.
  do 5 (split; [reflexivity|]).
  apply (web_search_summary_display web_event web_details (JInt 3)
           (JStr "Searching the web") (JStr "Rome is the capital of Italy") blank);
    reflexivity.
Defined.

Lemma unknown_node_display_witness :
("planner" ∉ known_nodes) /\
  planner_event !! "node_name" = Some (JStr "planner") /\
  planner_event !! "step" = Some (JInt 4) /\
  planner_event !! "description" = Some (JStr "Planning") /\
  planner_event !! "details" = Some (JObj (<["plan" := JStr "answer directly"]> ∅)) /\
  display_trace_event (JObj planner_event) blank =
  (Ok tt,
   World (session blank)
     (page blank ++
      [Subheader ("⚙️ Step " +:+ format_value (JInt 4) +:+ ": " +:+ "planner");
       Write ("**Description:** " +:+ format_value (JStr "Planning"))]
      ++ (if (size (<["plan" := JStr "answer directly"]> (∅ : gmap string value)) =? 0)%nat
          then []
          else [Json (JObj (<["plan" := JStr "answer directly"]> ∅))])
      ++ [Markdown (JStr "---")])).
Proof.
  split; [compute_done|]. do 4 (split; [reflexivity|]).
  apply (unknown_node_display planner_event (<["plan" := JStr "answer directly"]> ∅)
           "planner" (JInt 4) (JStr "Planning") blank);
    [compute_done | reflexivity | reflexivity | reflexivity | reflexivity].
Defined.

(** *** Uploads *)

Lemma upload_depends_on_one_answer_witness :
  (forall file,
     true = true -> Some report_pdf = Some file ->
     upload_answering upload_ok_reply ("http://localhost:8000" +:+ "/upload-document/") file
     = upload_endpoint_only upload_ok_reply
         ("http://localhost:8000" +:+ "/upload-document/") file) /\
  document_upload_section (upload_answering upload_ok_reply) "http://localhost:8000"
    (Some report_pdf) true
  = document_upload_section (upload_endpoint_only upload_ok_reply) "http://localhost:8000"
      (Some report_pdf) true.
Proof.
  split; [intros file _ _; reflexivity|].
  apply (upload_depends_on_one_answer (upload_answering upload_ok_reply)
           (upload_endpoint_only upload_ok_reply)
           "http://localhost:8000" (Some report_pdf) true).
  intros file _ _. reflexivity.
Defined.

(** The two networks of the run above differ away from the upload endpoint. *)
Example upload_networks_differ :
  upload_answering upload_ok_reply "http://localhost:8000/chat/" report_pdf
  <> upload_endpoint_only upload_ok_reply "http://localhost:8000/chat/" report_pdf.
Proof. vm_compute. discriminate. Qed.

Lemma upload_http_error_hides_backend_text_witness :
  upload_answering upload_rejected_reply ("http://localhost:8000" +:+ "/upload-document/")
    report_pdf = inr upload_rejected_reply /\
  (400 <= status_code (reply upload_rejected_reply) < 600)%Z /\
  document_upload_section (upload_answering upload_rejected_reply) "http://localhost:8000"
    (Some report_pdf) true =
  (Ok tt,
   [Drawn (Header "Upload Document to Knowledge Base");
    Drawn (Expander "Upload New Document (PDF Only)");
    FileUploader "Choose a PDF file" "pdf" "pdf_uploader";
    Button "Upload PDF" "upload_pdf_button";
    Drawn (Spinner ("Uploading " +:+ file_name report_pdf +:+ "..."));
    Drawn (Error ("Error uploading document: " +:+ status_error (reply upload_rejected_reply)
                    +:+ ". Response: No response from backend."));
    Drawn (Markdown (JStr "---"))]).
Proof.
  split; [reflexivity|]. split; [simpl; lia|].
  apply (upload_http_error_hides_backend_text (upload_answering upload_rejected_reply)
           "http://localhost:8000" report_pdf upload_rejected_reply);
    [reflexivity | simpl; lia].
Defined.

Lemma upload_connection_failure_witness :
  upload_unreachable ("http://localhost:8000" +:+ "/upload-document/") report_pdf
    = inl (RequestError (Exn Requests_ConnectionError "Connection refused") None) /\
  issubclass
    (exn_cls (error (RequestError (Exn Requests_ConnectionError "Connection refused") None)))
    Requests_ConnectionError = true /\
  document_upload_section upload_unreachable "http://localhost:8000" (Some report_pdf) true =
  (Ok tt,
   [Drawn (Header "Upload Document to Knowledge Base");
    Drawn (Expander "Upload New Document (PDF Only)");
    FileUploader "Choose a PDF file" "pdf" "pdf_uploader";
    Button "Upload PDF" "upload_pdf_button";
    Drawn (Spinner ("Uploading " +:+ file_name report_pdf +:+ "..."));
    Drawn (Error "Could not connect to the FastAPI backend. Please ensure it's running.");
    Drawn (Markdown (JStr "---"))]).
Proof.
  split; [reflexivity|]. split; [reflexivity|].
  apply (upload_connection_failure upload_unreachable "http://localhost:8000" report_pdf
           (RequestError (Exn Requests_ConnectionError "Connection refused") None));
    reflexivity.
Defined.

Lemma upload_success_message_witness :
  upload_answering upload_ok_reply ("http://localhost:8000" +:+ "/upload-document/")
    report_pdf = inr upload_ok_reply /\
  (200 <= status_code (reply upload_ok_reply) < 300)%Z /\
  body (reply upload_ok_reply) = Some (JObj upload_ok_body) /\
  document_upload_section (upload_answering upload_ok_reply) "http://localhost:8000"
    (Some report_pdf) true =
  (Ok tt,
   [Drawn (Header "Upload Document to Knowledge Base");
    Drawn (Expander "Upload New Document (PDF Only)");
    FileUploader "Choose a PDF file" "pdf" "pdf_uploader";
    Button "Upload PDF" "upload_pdf_button";
    Drawn (Spinner ("Uploading " +:+ file_name report_pdf +:+ "..."));
    Drawn (Success ("PDF '" +:+ format_value (default JNull (upload_ok_body !! "filename"))
                      +:+ "' uploaded successfully! Processed "
                      +:+ format_value (default JNull (upload_ok_body !! "processed_chunks"))
                      +:+ " pages."));
    Drawn (Markdown (JStr "---"))]).
Proof.
  split; [reflexivity|]. split; [simpl; lia|]. split; [reflexivity|].
  apply (upload_success_message (upload_answering upload_ok_reply) "http://localhost:8000"
           report_pdf upload_ok_reply upload_ok_body);
    [reflexivity | simpl; lia | reflexivity].
Defined.

Example upload_success_text :
  (snd (document_upload_section (upload_answering upload_ok_reply) "http://localhost:8000"
          (Some report_pdf) true)) !! 5 =
  Some (Drawn (Success "PDF 'report.pdf' uploaded successfully! Processed 12 pages.")).
Proof. vm_compute. reflexivity. Qed.
